(** * twython/api.py: the request pipeline, the OAuth helpers and the
    paginating search generator of the [Twython] client

    The development follows the module top-down: Python values as
    [json.loads] produces them, exceptions and the result of a call,
    responses of the transport, the client object, and then one definition
    per method of [class Twython], in source order.  The HTTP exchange
    itself is the environment: a method that performs one takes the
    [Response] it received as an argument.  Library functions that are not
    part of the module ([json.loads], [parse_qsl], [urlencode], [int] on a
    text) are variables of the section that holds the methods. *)

From Stdlib Require Import ZArith List Bool Ascii String Strings.Byte Lia.
From Stdlib Require Import Floats.SpecFloat.
From stdpp Require Import gmap strings list fin_maps.

Local Open Scope string_scope.
Local Open Scope Z_scope.
Set Warnings "-register-all".

(** ** Python values *)

(** What [json.loads] can return, which is also all the module ever holds
    in a parameter or an attribute.  Text is kept as its UTF-8 encoding; a
    dict is its list of items, a key bound once, read by its first
    binding. *)
Inductive value : Type :=
  | VNone
  | VBool (b : bool)
  | VInt (n : Z)
  | VFloat (f : spec_float)
  | VStr (s : string)
  | VList (l : list value)
  | VDict (d : list (string * value)).

(** [bool(v)], the test behind [if v], [not v], [a or b]. *)
Definition truthy (v : value) : bool :=
  match v with
  | VNone => false
  | VBool b => b
  | VInt n => negb (n =? 0)
  | VFloat (S754_zero _) => false
  | VFloat _ => true
  | VStr EmptyString => false
  | VStr _ => true
  | VList [] => false
  | VList _ => true
  | VDict [] => false
  | VDict _ => true
  end.

(** [isinstance(v, list)] *)
Definition is_list (v : value) : bool :=
  match v with VList _ => true | _ => false end.

Fixpoint assoc (k : string) (d : list (string * value)) : option value :=
  match d with
  | [] => None
  | (k', v) :: d' => if String.eqb k k' then Some v else assoc k d'
  end.

(** [a or b] *)
Definition py_or (a b : value) : value := if truthy a then a else b.

(** ** Exceptions and results *)

Inductive builtin_class : Type :=
  | AttributeError | KeyError | IndexError | TypeError | ValueError
  | OverflowError | UnicodeDecodeError.

(** The three classes of [twython.exceptions], the first the base of the
    other two. *)
Inductive twython_class : Type :=
  | TwythonError | TwythonAuthError | TwythonRateLimitError.

(** The first argument of a Twython exception: a value, or the raw bytes
    of a response ([get_authentication_tokens] passes
    [response.content]). *)
Inductive message : Type :=
  | Msg (v : value)
  | MsgBytes (b : list byte).

(** A raised exception.  A Twython exception is the constructor call the
    module makes: class, message, [error_code] and [retry_after] (both
    default to [None]). *)
Inductive exception : Type :=
  | Twython_exc (cls : twython_class) (msg : message)
                (error_code : option Z) (retry_after : option string)
  | Builtin_exc (cls : builtin_class).

Definition is_twython (e : exception) : bool :=
  match e with Twython_exc _ _ _ _ => true | Builtin_exc _ => false end.

Inductive outcome (A : Type) : Type :=
  | Return (a : A)
  | Raise (e : exception).
Arguments Return {A} a.
Arguments Raise {A} e.

Definition raise_builtin {A} (c : builtin_class) : outcome A :=
  Raise (Builtin_exc c).

Global Instance outcome_ret : MRet outcome := fun _ a => Return a.
Global Instance outcome_bind : MBind outcome := fun _ _ f m =>
  match m with
  | Return a => f a
  | Raise e => Raise e
  end.

(** ** Operations on values that can raise *)

(** [v[key]] for a string key. *)
Definition getitem_str (v : value) (key : string) : outcome value :=
  match v with
  | VDict d =>
      match assoc key d with
      | Some x => Return x
      | None => raise_builtin KeyError
      end
  | _ => raise_builtin TypeError
  end.

(** The code points of a text: a byte [10xxxxxx] continues the character
    before it. *)
Definition is_continuation (a : ascii) : bool :=
  let n := N_of_ascii a in ((128 <=? n) && (n <? 192))%N.

Fixpoint split_chars (s : string) : string * list string :=
  match s with
  | EmptyString => (EmptyString, [])
  | String a r =>
      let '(k, cs) := split_chars r in
      if is_continuation a then (String a k, cs)
      else (EmptyString, String a k :: cs)
  end.

Definition chars (s : string) : list string :=
  let '(k, cs) := split_chars s in
  match k with EmptyString => cs | _ => k :: cs end.

(** [v[0]] *)
Definition getitem_0 (v : value) : outcome value :=
  match v with
  | VList (x :: _) => Return x
  | VList [] => raise_builtin IndexError
  | VStr s =>
      match chars s with
      | c :: _ => Return (VStr c)
      | [] => raise_builtin IndexError
      end
  | VDict _ => raise_builtin KeyError
  | _ => raise_builtin TypeError
  end.

(** [for x in v]: the items the loop visits. *)
Definition py_iter (v : value) : outcome (list value) :=
  match v with
  | VList l => Return l
  | VStr s => Return (VStr <$> chars s)
  | VDict d => Return ((fun kv => VStr kv.1) <$> d)
  | _ => raise_builtin TypeError
  end.

(** [needle in s] for two texts: [needle] occurs in [s]. *)
Fixpoint substring_in (needle s : string) : bool :=
  String.prefix needle s ||
  match s with
  | EmptyString => false
  | String _ r => substring_in needle r
  end.

Definition is_str (needle : string) (v : value) : bool :=
  match v with VStr s => String.eqb s needle | _ => false end.

(** [needle in v] for a text [needle]. *)
Definition py_in (needle : string) (v : value) : outcome bool :=
  match v with
  | VStr s => Return (substring_in needle s)
  | VList l => Return (existsb (is_str needle) l)
  | VDict d => Return (existsb (fun kv => String.eqb kv.1 needle) d)
  | _ => raise_builtin TypeError
  end.

(** [int(s)] for a text [s] is the interpreter's own: which characters
    it takes for digits and for blanks comes with its Unicode tables, and
    whether it takes [_] between digits with its version.  The methods
    below take it as a variable, [int_of_str] ([None] stands for
    [ValueError]).  [ascii_int] is that function on a text of ASCII
    characters, as the interpreters the module is written for read it:
    blanks around an optional sign and decimal digits.  The examples use
    it, on such texts. *)
Definition is_space (a : ascii) : bool :=
  let n := N_of_ascii a in
  (((9 <=? n) && (n <=? 13)) || ((28 <=? n) && (n <=? 32)))%N.

Definition digit_of (a : ascii) : option Z :=
  let n := N_of_ascii a in
  if ((48 <=? n) && (n <=? 57))%N then Some (Z.of_N n - 48) else None.

Fixpoint lstrip (s : string) : string :=
  match s with
  | String a r => if is_space a then lstrip r else s
  | EmptyString => EmptyString
  end.

Fixpoint rstrip (s : string) : string :=
  match s with
  | EmptyString => EmptyString
  | String a r =>
      match rstrip r with
      | EmptyString => if is_space a then EmptyString else String a EmptyString
      | r' => String a r'
      end
  end.

Fixpoint digits (acc : Z) (s : string) : option Z :=
  match s with
  | EmptyString => Some acc
  | String a r =>
      match digit_of a with
      | Some d => digits (10 * acc + d) r
      | None => None
      end
  end.

Definition unsigned_digits (s : string) : option Z :=
  match s with
  | EmptyString => None
  | _ => digits 0 s
  end.

Definition ascii_int (s : string) : option Z :=
  match lstrip (rstrip s) with
  | String "-" r => Z.opp <$> unsigned_digits r
  | String "+" r => unsigned_digits r
  | t => unsigned_digits t
  end.

(** [int(f)] for a float: cut towards zero. *)
Definition int_of_float (f : spec_float) : outcome Z :=
  match f with
  | S754_zero _ => Return 0
  | S754_infinity _ => raise_builtin OverflowError
  | S754_nan => raise_builtin ValueError
  | S754_finite s m e =>
      let mag := if 0 <=? e then Z.pos m * 2 ^ e else Z.pos m / 2 ^ (- e) in
      Return (if s then - mag else mag)
  end.

(** [int(v)], with [int_of_str] for the texts. *)
Definition py_int (int_of_str : string -> option Z) (v : value) : outcome Z :=
  match v with
  | VInt n => Return n
  | VBool b => Return (if b then 1 else 0)
  | VFloat f => int_of_float f
  | VStr s =>
      match int_of_str s with
      | Some n => Return n
      | None => raise_builtin ValueError
      end
  | _ => raise_builtin TypeError
  end.


(** [v.get(key, default)]: only a dict has the method. *)
Definition py_get (v : value) (key : string) (default : value) : outcome value :=
  match v with
  | VDict d => Return (from_option id default (assoc key d))
  | _ => raise_builtin AttributeError
  end.

(** [dict(pairs)]: a later pair replaces an earlier one with its key. *)
Definition py_dict {A} (pairs : list (string * A)) : gmap string A :=
  fold_left (fun m kv => <[kv.1 := kv.2]> m) pairs ∅.

(** ** Responses of the transport *)

Definition byte_in (lo hi : N) (b : byte) : bool :=
  let n := Byte.to_N b in ((lo <=? n) && (n <=? hi))%N.

Definition utf8_tail (b : byte) : bool := byte_in 128 191 b.

(** The byte after the lead of a three- or four-byte character: no
    overlong form, no surrogate, nothing above U+10FFFF. *)
Definition utf8_second (b0 b1 : byte) : bool :=
  if byte_in 224 224 b0 then byte_in 160 191 b1
  else if byte_in 237 237 b0 then byte_in 128 159 b1
  else if byte_in 240 240 b0 then byte_in 144 191 b1
  else if byte_in 244 244 b0 then byte_in 128 143 b1
  else utf8_tail b1.

Fixpoint utf8_valid (bs : list byte) : bool :=
  match bs with
  | [] => true
  | b0 :: r0 =>
      if byte_in 0 127 b0 then utf8_valid r0
      else
        match r0 with
        | [] => false
        | b1 :: r1 =>
            if byte_in 194 223 b0 then utf8_tail b1 && utf8_valid r1
            else
              match r1 with
              | [] => false
              | b2 :: r2 =>
                  if byte_in 224 239 b0
                  then utf8_second b0 b1 && utf8_tail b2 && utf8_valid r2
                  else
                    match r2 with
                    | [] => false
                    | b3 :: r3 =>
                        byte_in 240 244 b0 && utf8_second b0 b1
                        && utf8_tail b2 && utf8_tail b3 && utf8_valid r3
                    end
              end
        end
  end.

(** [bs.decode('utf-8')]: [None] stands for [UnicodeDecodeError]. *)
Definition decode_utf8 (bs : list byte) : option string :=
  if utf8_valid bs then Some (string_of_list_byte bs) else None.

(** Header names are matched without regard to case (the mapping
    [requests] hands out): a header is stored under its lower-case name. *)
Definition lower_ascii (a : ascii) : ascii :=
  let n := N_of_ascii a in
  if ((65 <=? n) && (n <=? 90))%N then ascii_of_N (n + 32) else a.

Fixpoint lower (s : string) : string :=
  match s with
  | EmptyString => EmptyString
  | String a r => String (lower_ascii a) (lower r)
  end.

Definition headers_get (h : gmap string string) (name : string) : option string :=
  h !! lower name.

Module Response.
Record t : Type := {
  content : list byte;
  status_code : Z;
  headers : gmap string string;
  cookies : list (string * string);
  url : string }.
End Response.

(** The dict [_request] stores in [self._last_call]. *)
Module LastCall.
Record t : Type := {
  api_call : value;
  api_error : value;
  cookies : list (string * string);
  headers : gmap string string;
  status_code : Z;
  url : string;
  content : string }.

Definition set_api_error (lc : t) (e : value) : t :=
  {| api_call := api_call lc; api_error := e; cookies := cookies lc;
     headers := headers lc; status_code := status_code lc; url := url lc;
     content := content lc |}.
End LastCall.

(** ** The client object *)

(** [OAuth1(client_key, client_secret, resource_owner_key,
    resource_owner_secret)], the last two [None] when not given. *)
Record OAuth1 : Type := {
  client_key : value;
  client_secret : value;
  resource_owner_key : value;
  resource_owner_secret : value }.

(** [self.client], a [requests.Session]. *)
Module Session.
Record t : Type := {
  headers : gmap string string;
  proxies : option (gmap string string);
  auth : option OAuth1;
  verify : value }.
End Session.

(** An instance of [class Twython].  [callback_url] is the instance
    attribute of that name, [None] while nothing has assigned it. *)
Record Twython : Type := {
  api_version : string;
  app_key : value;
  app_secret : value;
  oauth_token : value;
  oauth_token_secret : value;
  client : Session.t;
  _last_call : option LastCall.t;
  callback_url : option value }.

Definition set_last_call (self : Twython) (lc : LastCall.t) : Twython :=
  {| api_version := api_version self; app_key := app_key self;
     app_secret := app_secret self; oauth_token := oauth_token self;
     oauth_token_secret := oauth_token_secret self; client := client self;
     _last_call := Some lc; callback_url := callback_url self |}.

(** [self.callback_url] *)
Definition self_callback_url (self : Twython) : outcome value :=
  match callback_url self with
  | Some v => Return v
  | None => raise_builtin AttributeError
  end.

Definition is_none (v : value) : bool :=
  match v with VNone => true | _ => false end.

(** [self.api_url % path] *)
Definition api_url (path : string) : string := "https://api.twitter.com/" +:+ path.
Definition request_token_url : string := api_url "oauth/request_token".
Definition access_token_url : string := api_url "oauth/access_token".
Definition authenticate_url : string := api_url "oauth/authenticate".

(** ** The methods of [class Twython] *)

Section Methods.

(** [json.loads]: [None] stands for [ValueError]. *)
Variable json_loads : string -> option value.
(** [urllib]'s [parse_qsl] and [urlencode]. *)
Variable parse_qsl : string -> list (string * string).
Variable urlencode : gmap string value -> string.
(** [twython.__version__] *)
Variable __version__ : string.
(** [int] on a text: [None] stands for [ValueError]. *)
Variable int_of_str : string -> option Z.

Definition __init__ (app_key app_secret oauth_token oauth_token_secret : value)
    (headers : option (gmap string string))
    (proxies : option (gmap string string))
    (api_version : string) (ssl_verify : value) : Twython :=
  let req_headers : gmap string string :=
    {[ "User-Agent" := "Twython v" +:+ __version__ ]} in
  let req_headers :=
    match headers with
    | Some h => if bool_decide (h = ∅) then req_headers else h ∪ req_headers
    | None => req_headers
    end in
  let auth : option OAuth1 := None in
  let auth :=
    if negb (is_none app_key) && negb (is_none app_secret)
       && is_none oauth_token && is_none oauth_token_secret
    then Some {| client_key := app_key; client_secret := app_secret;
                 resource_owner_key := VNone; resource_owner_secret := VNone |}
    else auth in
  let auth :=
    if negb (is_none app_key) && negb (is_none app_secret)
       && negb (is_none oauth_token) && negb (is_none oauth_token_secret)
    then Some {| client_key := app_key; client_secret := app_secret;
                 resource_owner_key := oauth_token;
                 resource_owner_secret := oauth_token_secret |}
    else auth in
  {| api_version := api_version;
     app_key := app_key; app_secret := app_secret;
     oauth_token := oauth_token; oauth_token_secret := oauth_token_secret;
     client := {| Session.headers := req_headers; Session.proxies := proxies;
                  Session.auth := auth; Session.verify := ssl_verify |};
     _last_call := None;
     callback_url := None |}.

(** The message [_request] takes from the decoded body of an error
    response (lines 118-123). *)
Definition default_errors : value :=
  VList [VDict [("message", VStr "An error occurred processing your request.")]].

Definition extract_error_message (content : value) : outcome value :=
  errors ← py_get content "errors" default_errors;
  if truthy errors && is_list errors
  then first ← getitem_0 errors; getitem_str first "message"
  else Return errors.

(** The class [_request] raises for a status above 304 (lines 126-133). *)
Definition exception_type (status_code : Z) (error_message : value)
  : outcome twython_class :=
  if status_code =? 429 then Return TwythonRateLimitError
  else if status_code =? 401 then Return TwythonAuthError
  else
    bad ← py_in "Bad Authentication data" error_message;
    Return (if bad : bool then TwythonAuthError else TwythonError).

Definition accepted_status (status_code : Z) : bool :=
  (status_code =? 200) || (status_code =? 201) || (status_code =? 202).

Definition invalid_json : exception :=
  Twython_exc TwythonError
    (Msg (VStr "Response was not valid JSON, unable to decode.")) None None.

(** [_request], from the response on (lines 89-143): the result of the
    call and the client it leaves. *)
Definition _request (self : Twython) (response : Response.t) (api_call : value)
  : outcome value * Twython :=
  match decode_utf8 (Response.content response) with
  | None => (raise_builtin UnicodeDecodeError, self)
  | Some text =>
      let last_call :=
        {| LastCall.api_call := api_call;
           LastCall.api_error := VNone;
           LastCall.cookies := Response.cookies response;
           LastCall.headers := Response.headers response;
           LastCall.status_code := Response.status_code response;
           LastCall.url := Response.url response;
           LastCall.content := text |} in
      let self := set_last_call self last_call in
      let '(json_error, content) :=
        match json_loads text with
        | Some v => (false, v)
        | None => (true, VDict [])
        end in
      if 304 <? Response.status_code response then
        match extract_error_message content with
        | Raise e => (Raise e, self)
        | Return error_message =>
            let self :=
              set_last_call self (LastCall.set_api_error last_call error_message) in
            match exception_type (Response.status_code response) error_message with
            | Raise e => (Raise e, self)
            | Return cls =>
                (Raise (Twython_exc cls (Msg error_message)
                          (Some (Response.status_code response))
                          (headers_get (Response.headers response) "retry-after")),
                 self)
            end
        end
      else if json_error && negb (accepted_status (Response.status_code response))
      then (Raise invalid_json, self)
      else (Return content, self)
  end.

(** The URL [request] calls (lines 162-165). *)
Definition request_url (endpoint version : string) : string :=
  if String.prefix "http://" endpoint || String.prefix "https://" endpoint
  then endpoint
  else api_url version +:+ "/" +:+ endpoint +:+ ".json".

Definition request (self : Twython) (endpoint version : string)
    (response : Response.t) : outcome value * Twython :=
  let url := request_url endpoint version in
  _request self response (VStr url).

Definition get (self : Twython) (endpoint version : string)
    (response : Response.t) : outcome value * Twython :=
  request self endpoint version response.

Definition post (self : Twython) (endpoint version : string)
    (response : Response.t) : outcome value * Twython :=
  request self endpoint version response.

Definition no_call_yet : exception :=
  Twython_exc TwythonError
    (Msg (VStr "This function must be called after an API call.  It delivers header information."))
    None None.

Definition get_lastfunction_header (self : Twython) (header : string)
  : outcome value :=
  match _last_call self with
  | None => Raise no_call_yet
  | Some last_call =>
      if bool_decide (is_Some (headers_get (LastCall.headers last_call) header))
      then
        match headers_get (LastCall.headers last_call) header with
        | Some v => Return (VStr v)
        | None => raise_builtin KeyError
        end
      else Return VNone
  end.

Definition no_request_tokens : exception :=
  Twython_exc TwythonError (Msg (VStr "Unable to decode request tokens.")) None None.

(** The parameters of the authorisation URL (lines 225-237). *)
Definition auth_url_params (self : Twython) (callback_url force_login screen_name : value)
    (request_tokens : gmap string string) : outcome (gmap string value) :=
  let oauth_callback_confirmed :=
    bool_decide (request_tokens !! "oauth_callback_confirmed" = Some "true") in
  token ← match request_tokens !! "oauth_token" with
          | Some t => Return (VStr t)
          | None => raise_builtin KeyError
          end;
  let params : gmap string value := {[ "oauth_token" := token ]} in
  let params :=
    if truthy force_login
    then <["screen_name" := screen_name]> (<["force_login" := force_login]> params)
    else params in
  if truthy callback_url && negb oauth_callback_confirmed
  then old ← self_callback_url self; Return (<["oauth_callback" := old]> params)
  else Return params.

(** [get_authentication_tokens], given the response of the request-token
    endpoint. *)
Definition get_authentication_tokens (self : Twython)
    (callback_url force_login screen_name : value) (response : Response.t)
  : outcome (gmap string string) :=
  callback_url ← (if truthy callback_url then Return callback_url
                  else self_callback_url self);
  if Response.status_code response =? 401 then
    Raise (Twython_exc TwythonAuthError (MsgBytes (Response.content response))
             (Some (Response.status_code response)) None)
  else if negb (Response.status_code response =? 200) then
    Raise (Twython_exc TwythonError (MsgBytes (Response.content response))
             (Some (Response.status_code response)) None)
  else
    match decode_utf8 (Response.content response) with
    | None => raise_builtin UnicodeDecodeError
    | Some text =>
        let request_tokens := py_dict (parse_qsl text) in
        if bool_decide (request_tokens = ∅) then Raise no_request_tokens
        else
          params ← auth_url_params self callback_url force_login screen_name
                     request_tokens;
          Return (<["auth_url" := authenticate_url +:+ "?" +:+ urlencode params]>
                    request_tokens)
    end.

Definition no_authorized_tokens : exception :=
  Twython_exc TwythonError (Msg (VStr "Unable to decode authorized tokens.")) None None.

(** [get_authorized_tokens], given the response of the access-token
    endpoint. *)
Definition get_authorized_tokens (self : Twython) (oauth_verifier : value)
    (response : Response.t) : outcome (gmap string string) :=
  match decode_utf8 (Response.content response) with
  | None => raise_builtin UnicodeDecodeError
  | Some text =>
      let authorized_tokens := py_dict (parse_qsl text) in
      if bool_decide (authorized_tokens = ∅) then Raise no_authorized_tokens
      else Return authorized_tokens
  end.

(** Modelled from the spec: [EndpointsMixin.search] (twython/endpoints.py is
    not among the sources).  Section 4.7 has the generator call the search
    endpoint through the request facade: a GET of [search/tweets]. *)
Definition search (self : Twython) (response : Response.t)
  : outcome value * Twython :=
  get self "search/tweets" "1.1" response.

Definition no_next_page : exception :=
  Twython_exc TwythonError
    (Msg (VStr "Unable to generate next page of search results, `page` is not a number."))
    None None.

(** [int(content['statuses'][0]['id_str'])] *)
Definition first_id (content : value) : outcome Z :=
  statuses ← getitem_str content "statuses";
  first ← getitem_0 statuses;
  id_str ← getitem_str first "id_str";
  py_int int_of_str id_str.

(** The [try] block of [search_gen] (lines 318-322): the parameters of
    the next page. *)
Definition next_params (params : gmap string value) (content : value)
  : outcome (gmap string value) :=
  match params !! "since_id" with
  | Some _ => Return params
  | None =>
      match first_id content with
      | Return n => Return (<["since_id" := VInt (n + 1)]> params)
      | Raise (Builtin_exc TypeError) | Raise (Builtin_exc ValueError) =>
          Raise no_next_page
      | Raise e => Raise e
      end
  end.

(** How one page of the generator ends. *)
Inductive page_end : Type :=
  | Stop
  | Next (params : gmap string value)
  | Fail (e : exception).

(** One page of [search_gen] once [search] has returned [content] (lines
    312-322): the tweets it yields, in order, and what follows them.
    [raise StopIteration] ends the generator, as it does in the Python
    the module was written for. *)
Definition search_gen_page (params : gmap string value) (content : value)
  : list value * page_end :=
  match py_get content "statuses" VNone with
  | Raise e => ([], Fail e)
  | Return statuses =>
      if negb (truthy statuses) then ([], Stop)
      else
        match py_iter statuses with
        | Raise e => ([], Fail e)
        | Return tweets =>
            (tweets,
             match next_params params content with
             | Return params' => Next params'
             | Raise e => Fail e
             end)
        end
  end.

(** What a consumer of the generator observes: the calls of [search] with
    their keyword arguments, and the tweets yielded. *)
Inductive gen_event : Type :=
  | Searched (kwargs : gmap string value)
  | Yielded (tweet : value).

(** How a run ends: the generator is exhausted, it raised, or it waits
    for the response of its next call. *)
Inductive gen_end : Type :=
  | Exhausted
  | Raised (e : exception)
  | Waiting (params : gmap string value).

(** [search_gen] run against the responses the transport gives to its
    successive calls. *)
Fixpoint search_gen (self : Twython) (search_query : value)
    (params : gmap string value) (responses : list Response.t)
  : list gen_event * gen_end * Twython :=
  match params !! "q" with
  | Some _ => ([], Raised (Builtin_exc TypeError), self)
  | None =>
      match responses with
      | [] => ([], Waiting params, self)
      | response :: rest =>
          let kwargs := <["q" := search_query]> params in
          let '(result, self) := search self response in
          match result with
          | Raise e => ([Searched kwargs], Raised e, self)
          | Return content =>
              let '(tweets, after) := search_gen_page params content in
              let here := Searched kwargs :: (Yielded <$> tweets) in
              match after with
              | Stop => (here, Exhausted, self)
              | Fail e => (here, Raised e, self)
              | Next params' =>
                  let '(events, fin, self) :=
                    search_gen self search_query params' rest in
                  ((here ++ events)%list, fin, self)
              end
          end
      end
  end.

End Methods.

(** ** Sample responses

    The bodies of the scenarios of the module's documentation and of the
    examples below, with what [json.loads] and [parse_qsl] make of them. *)

Definition dq : string := String (ascii_of_nat 34) EmptyString.
Definition quoted (s : string) : string := dq +:+ s +:+ dq.

(** [{"errors": 5}] *)
Definition body_scalar_errors : string :=
  "{" +:+ quoted "errors" +:+ ": 5}".
(** [{"errors": null}] *)
Definition body_null_errors : string :=
  "{" +:+ quoted "errors" +:+ ": null}".
(** [{"errors":[{"code":34}]}] *)
Definition body_errors_without_message : string :=
  "{" +:+ quoted "errors" +:+ ":[{" +:+ quoted "code" +:+ ":34}]}".
(** [{"errors":[{"message":"Invalid or expired token."}]}] *)
Definition body_expired_token : string :=
  "{" +:+ quoted "errors" +:+ ":[{" +:+ quoted "message" +:+ ":"
  +:+ quoted "Invalid or expired token." +:+ "}]}".
(** [{"statuses":[{"id_str":"5"},{"id_str":"3"}]}] *)
Definition body_two_statuses : string :=
  "{" +:+ quoted "statuses" +:+ ":[{" +:+ quoted "id_str" +:+ ":" +:+ quoted "5"
  +:+ "},{" +:+ quoted "id_str" +:+ ":" +:+ quoted "3" +:+ "}]}".
(** [{"statuses":[]}] *)
Definition body_no_statuses : string :=
  "{" +:+ quoted "statuses" +:+ ":[]}".

Definition tweet (id_str : string) : value := VDict [("id_str", VStr id_str)].

(** [json.loads] on the bodies above; every other text used below
    ([not json], the empty body) is no JSON. *)
Definition sample_loads (text : string) : option value :=
  if String.eqb text body_scalar_errors then
    Some (VDict [("errors", VInt 5)])
  else if String.eqb text body_null_errors then
    Some (VDict [("errors", VNone)])
  else if String.eqb text "[]" then
    Some (VList [])
  else if String.eqb text body_errors_without_message then
    Some (VDict [("errors", VList [VDict [("code", VInt 34)]])])
  else if String.eqb text body_expired_token then
    Some (VDict [("errors",
                  VList [VDict [("message", VStr "Invalid or expired token.")]])])
  else if String.eqb text body_two_statuses then
    Some (VDict [("statuses", VList [tweet "5"; tweet "3"])])
  else if String.eqb text body_no_statuses then
    Some (VDict [("statuses", VList [])])
  else None.

(** [parse_qsl] on the token bodies used below. *)
Definition sample_parse_qsl (text : string) : list (string * string) :=
  if String.eqb text
       "oauth_token=abc&oauth_token_secret=def&oauth_callback_confirmed=false"
  then [("oauth_token", "abc"); ("oauth_token_secret", "def");
        ("oauth_callback_confirmed", "false")]
  else if String.eqb text "oauth_token=abc&oauth_token_secret=def"
  then [("oauth_token", "abc"); ("oauth_token_secret", "def")]
  else [].

(** A stand-in for [urlencode]: the keys it is given, in key order. *)
Definition sample_urlencode (params : gmap string value) : string :=
  String.concat "&" ((map_to_list params).*1).

Definition respond (status_code : Z) (body : string)
    (headers : list (string * string)) : Response.t :=
  {| Response.content := list_byte_of_string body;
     Response.status_code := status_code;
     Response.headers := list_to_map headers;
     Response.cookies := [];
     Response.url := "https://api.twitter.com/1.1/search/tweets.json" |}.

(** [Twython(APP_KEY, APP_SECRET)] *)
Definition sample_client : Twython :=
  __init__ "3.0.0" (VStr "APP_KEY") (VStr "APP_SECRET") VNone VNone None None
    "1.1" (VBool true).


(** Two calls in a row: a search that succeeds, then one that is rate
    limited. *)
Definition sample_calls : list (Response.t * value) :=
  [ (respond 200 body_two_statuses [("x-rate-limit-remaining", "1")],
     VStr "https://api.twitter.com/1.1/search/tweets.json");
    (respond 429 "Rate limit exceeded"
       [("x-rate-limit-remaining", "0"); ("retry-after", "30")],
     VStr "https://api.twitter.com/1.1/search/tweets.json") ].

(** The body of a request-token response that does not confirm the
    callback, and of one that says nothing about it. *)
Definition body_unconfirmed : string :=
  "oauth_token=abc&oauth_token_secret=def&oauth_callback_confirmed=false".
Definition body_tokens : string := "oauth_token=abc&oauth_token_secret=def".

(** [sample_client] after [client.callback_url = 'http://old.example/cb']. *)
Definition sample_client_with_attribute : Twython :=
  {| api_version := api_version sample_client;
     app_key := app_key sample_client; app_secret := app_secret sample_client;
     oauth_token := oauth_token sample_client;
     oauth_token_secret := oauth_token_secret sample_client;
     client := client sample_client; _last_call := _last_call sample_client;
     callback_url := Some (VStr "http://old.example/cb") |}.

(** The record a call leaves in [self._last_call] for [response], with
    [error] in its [api_error] field. *)
Definition recorded (response : Response.t) (api_call : value) (text : string)
    (error : value) : LastCall.t :=
  {| LastCall.api_call := api_call;
     LastCall.api_error := error;
     LastCall.cookies := Response.cookies response;
     LastCall.headers := Response.headers response;
     LastCall.status_code := Response.status_code response;
     LastCall.url := Response.url response;
     LastCall.content := text |}.

(** The client after a sequence of calls of [_request], each given with
    the response it received and its [api_call] argument. *)
Definition after_calls (json_loads : string -> option value) (self : Twython)
    (calls : list (Response.t * value)) : Twython :=
  fold_left (fun self call => (_request json_loads self call.1 call.2).2)
    calls self.

(** The class the documentation gives the error of a response, from its
    status and from whether its message holds "Bad Authentication data":
    written after the documented rule, to be compared with
    [exception_type]. *)
Definition documented_class (status_code : Z) (bad_authentication : bool)
  : twython_class :=
  if status_code =? 429 then TwythonRateLimitError
  else if (status_code =? 401) || bad_authentication then TwythonAuthError
  else TwythonError.

(** The decoded bodies of an error response as Twitter documents them,
    with the message each carries: no [errors] field (the default
    message), a text under [errors], or a list under [errors] whose first
    item is an object with a text [message]. *)
Inductive error_body : value -> string -> Prop :=
  | error_body_default d :
      assoc "errors" d = None ->
      error_body (VDict d) "An error occurred processing your request."
  | error_body_text d s :
      assoc "errors" d = Some (VStr s) ->
      error_body (VDict d) s
  | error_body_list d e rest s :
      assoc "errors" d = Some (VList (VDict e :: rest)) ->
      assoc "message" e = Some (VStr s) ->
      error_body (VDict d) s.

(** Every call of [search] in a run is made with [kwargs]. *)
Definition searches_with (kwargs : gmap string value) (event : gen_event) : Prop :=
  match event with
  | Searched kwargs' => kwargs' = kwargs
  | Yielded _ => True
  end.

(** The parameters of the authorisation URL when the server confirmed
    the callback: the token, and with [force_login] also [force_login]
    and [screen_name]. *)
Definition confirmed_params (token : string) (force_login screen_name : value)
  : gmap string value :=
  if truthy force_login
  then <["screen_name" := screen_name]>
         (<["force_login" := force_login]> {[ "oauth_token" := VStr token ]})
  else {[ "oauth_token" := VStr token ]}.

(** The client a search leaves when its response is text. *)
Definition searched (self : Twython) (response : Response.t) (text : string)
    (error : value) : Twython :=
  set_last_call self
    (recorded response (VStr (request_url "search/tweets" "1.1")) text error).

(** [parse_qsl] on further token bodies: one that confirms the callback
    and one that holds no token. *)
Definition body_confirmed : string :=
  "oauth_token=abc&oauth_token_secret=def&oauth_callback_confirmed=true".
Definition more_parse_qsl (text : string) : list (string * string) :=
  if String.eqb text body_confirmed
  then [("oauth_token", "abc"); ("oauth_token_secret", "def");
        ("oauth_callback_confirmed", "true")]
  else if String.eqb text "error=denied" then [("error", "denied")]
  else [].

(** [parse_qsl] on a body that names [oauth_token] twice. *)
Definition twice_parse_qsl (text : string) : list (string * string) :=
  if String.eqb text "oauth_token=old&oauth_token=new"
  then [("oauth_token", "old"); ("oauth_token", "new")]
  else [].

(** An event of a run that repeats one page: a call of [search] with
    [kwargs], or a tweet of [tweets]. *)
Definition repeats_page (kwargs : gmap string value) (tweets : list value)
    (event : gen_event) : Prop :=
  match event with
  | Searched kwargs' => kwargs' = kwargs
  | Yielded tweet => tweet ∈ tweets
  end.

(** [{"statuses":[{"id_str":1e999}]}], and [json.loads] on it: the number
    is beyond every float and reads as infinity. *)
Definition body_overflowing_id : string :=
  "{" +:+ quoted "statuses" +:+ ":[{" +:+ quoted "id_str" +:+ ":1e999}]}".
Definition overflow_loads (text : string) : option value :=
  if String.eqb text body_overflowing_id
  then Some (VDict [("statuses",
                     VList [VDict [("id_str", VFloat (S754_infinity false))]])])
  else None.

(** A response whose body, the bytes C3 28, is no UTF-8. *)
Definition garbled_response : Response.t :=
  {| Response.content := [xc3; x28]; Response.status_code := 200;
     Response.headers := {[ "x-rate-limit-remaining" := "14" ]};
     Response.cookies := [];
     Response.url := "https://api.twitter.com/1.1/search/tweets.json" |}.

(** The calls of a sequence that got as far as the record: those whose
    response body is UTF-8 text. *)
Definition heard (calls : list (Response.t * value)) : list (Response.t * value) :=
  filter (fun call => is_Some (decode_utf8 (Response.content call.1))) calls.

(** The values ['Bad Authentication data' in m] is defined on. *)
Definition membership_defined (m : value) : bool :=
  match m with
  | VStr _ | VList _ | VDict _ => true
  | _ => false
  end.

(** The statuses and messages [_request] finds a class for: 429 and 401
    whatever the message, any other status when the message is a text, a
    list or an object. *)
Definition class_defined (status_code : Z) (m : value) : bool :=
  (status_code =? 429) || (status_code =? 401) || membership_defined m.

(** The decoded bodies of a response above 304 that [_request] turns
    into an exception of the module, by their shape: an object without
    [errors]; an object whose [errors] is a list that starts with an
    object holding a [message]; an object whose [errors] is anything else
    (the empty list too); in the last two cases with a message the status
    has a class for. *)
Definition classifiable (status_code : Z) (content : value) : bool :=
  match content with
  | VDict d =>
      match assoc "errors" d with
      | None => true
      | Some (VList (VDict e :: _)) =>
          match assoc "message" e with
          | Some m => class_defined status_code m
          | None => false
          end
      | Some (VList (_ :: _)) => false
      | Some errors => class_defined status_code errors
      end
  | _ => false
  end.

(** [extract_error_message] and [exception_type] raise nothing of the
    module's own: what escapes them is a builtin exception. *)
Lemma extract_error_message_raises (content : value) (e : exception) :
  extract_error_message content = Raise e -> exists c, e = Builtin_exc c.
Proof.
  unfold extract_error_message, py_get, getitem_0, getitem_str, raise_builtin.
  intros H.
  repeat (case_match; simplify_eq/=); eauto.
Qed.

Lemma exception_type_raises (status_code : Z) (m : value) (e : exception) :
  exception_type status_code m = Raise e -> e = Builtin_exc TypeError.
Proof.
  unfold exception_type, py_in, raise_builtin. intros H.
  repeat (case_match; simplify_eq/=); reflexivity.
Qed.

(** * Properties *)

Section RequestPipeline.

Variable json_loads : string -> option value.

Implicit Types (self : Twython) (response : Response.t) (api_call : value).

Lemma accepted_status_spec (code : Z) :
  accepted_status code = true <-> code = 200 \/ code = 201 \/ code = 202.
Proof. unfold accepted_status. lia. Qed.

(** What [_request] does with a status of at most 304, by cases on the
    body. *)
Lemma _request_low_status self response api_call text :
  decode_utf8 (Response.content response) = Some text ->
  Response.status_code response <= 304 ->
  _request json_loads self response api_call =
    (match json_loads text with
     | Some v => Return v
     | None =>
         if accepted_status (Response.status_code response)
         then Return (VDict []) else Raise invalid_json
     end,
     set_last_call self (recorded response api_call text VNone)).
Proof.
  intros Hdec Hlow. unfold _request. rewrite Hdec.
  replace (304 <? Response.status_code response) with false by lia.
  destruct (json_loads text); simpl; [reflexivity|].
  destruct (accepted_status _); reflexivity.
Qed.

(** What [_request] does with a status above 304: nothing but the error
    message and its class decide the result. *)
Lemma _request_high_status self response api_call text :
  decode_utf8 (Response.content response) = Some text ->
  304 < Response.status_code response ->
  _request json_loads self response api_call =
    match extract_error_message (default (VDict []) (json_loads text)) with
    | Raise e =>
        (Raise e, set_last_call self (recorded response api_call text VNone))
    | Return error_message =>
        (match exception_type (Response.status_code response) error_message with
         | Raise e => Raise e
         | Return cls =>
             Raise (Twython_exc cls (Msg error_message)
                      (Some (Response.status_code response))
                      (headers_get (Response.headers response) "retry-after"))
         end,
         set_last_call self (recorded response api_call text error_message))
    end.
Proof.
  intros Hdec Hhigh. unfold _request. rewrite Hdec.
  replace (304 <? Response.status_code response) with true by lia.
  destruct (json_loads text) as [v|]; cbn [default from_option id].
  - destruct (extract_error_message v) as [m|e]; [|reflexivity].
    destruct (exception_type (Response.status_code response) m); reflexivity.
  - destruct (extract_error_message (VDict [])) as [m|e]; [|reflexivity].
    destruct (exception_type (Response.status_code response) m); reflexivity.
Qed.

Lemma _request_undecodable self response api_call :
  decode_utf8 (Response.content response) = None ->
  _request json_loads self response api_call =
    (raise_builtin UnicodeDecodeError, self).
Proof. intros Hdec. unfold _request. now rewrite Hdec. Qed.

(** C3: a response whose body is text that [json.loads] rejects and whose
    status is 200, 201 or 202 makes [_request] return the empty dict; it
    raises nothing. *)
Theorem malformed_json_accepted_status self response api_call text :
  decode_utf8 (Response.content response) = Some text ->
  json_loads text = None ->
  Response.status_code response = 200 \/ Response.status_code response = 201
    \/ Response.status_code response = 202 ->
  (_request json_loads self response api_call).1 = Return (VDict []).
Proof.
  intros Hdec Hjson Hcode.
  rewrite (_request_low_status _ _ _ text) by (assumption || lia).
  rewrite Hjson. cbn [fst].
  apply accepted_status_spec in Hcode. now rewrite Hcode.
Qed.

(** C2, amended: with a status of at most 304 and a body that is UTF-8
    text, [_request] returns when the body is JSON or the status is 200,
    201 or 202, and raises the invalid-JSON [TwythonError] when the body
    is no JSON and the status is any other one. *)
Theorem low_status_returns_unless_bad_json self response api_call text :
  decode_utf8 (Response.content response) = Some text ->
  Response.status_code response <= 304 ->
  let result := (_request json_loads self response api_call).1 in
  (is_Some (json_loads text)
   \/ Response.status_code response = 200 \/ Response.status_code response = 201
   \/ Response.status_code response = 202 ->
   exists v, result = Return v)
  /\ (json_loads text = None ->
      Response.status_code response <> 200 ->
      Response.status_code response <> 201 ->
      Response.status_code response <> 202 ->
      result = Raise invalid_json).
Proof.
  intros Hdec Hlow result. subst result.
  rewrite (_request_low_status _ _ _ text) by assumption. cbn [fst].
  split.
  - intros [[v Hv]|Hcode].
    + rewrite Hv. now exists v.
    + apply accepted_status_spec in Hcode. rewrite Hcode.
      destruct (json_loads text) as [v|]; eauto.
  - intros Hjson H200 H201 H202. rewrite Hjson.
    destruct (accepted_status _) eqn:Hacc; [|reflexivity].
    apply accepted_status_spec in Hacc. lia.
Qed.

(** C9, amended: a call of [_request] whose response body is UTF-8 text
    overwrites [self._last_call] with the [api_call] argument, the
    cookies, headers, status code and URL of the response and its text,
    whatever the call then does.  The [api_error] field is [None] when the
    call returns and whenever the status is at most 304 (also when the
    call then raises the invalid-JSON error); it is the message of the
    exception when the call raises one classified from a status above
    304. *)
Theorem request_overwrites_last_call self response api_call text :
  decode_utf8 (Response.content response) = Some text ->
  let result := (_request json_loads self response api_call).1 in
  let self' := (_request json_loads self response api_call).2 in
  exists error,
    _last_call self' = Some (recorded response api_call text error)
    /\ (forall v, result = Return v -> error = VNone)
    /\ (Response.status_code response <= 304 -> error = VNone)
    /\ (forall cls m code retry,
          304 < Response.status_code response ->
          result = Raise (Twython_exc cls m code retry) ->
          m = Msg error /\ code = Some (Response.status_code response)).
Proof.
  intros Hdec result self'. subst result self'.
  destruct (Z.le_gt_cases (Response.status_code response) 304) as [Hlow|Hhigh].
  - rewrite (_request_low_status _ _ _ text) by assumption.
    exists VNone. cbn [fst snd]. repeat split; try reflexivity; lia.
  - rewrite (_request_high_status _ _ _ text) by (assumption || lia).
    destruct (extract_error_message _) as [m|e] eqn:Hm; cbn [fst snd].
    + exists m. split; [reflexivity|].
      destruct (exception_type _ m) as [cls|e] eqn:Hcls.
      * repeat split; try (discriminate || lia).
        all: intros; simplify_eq; reflexivity.
      * apply exception_type_raises in Hcls. subst e.
        repeat split; try (discriminate || lia).
    + apply extract_error_message_raises in Hm. destruct Hm as [c ->].
      exists VNone. split; [reflexivity|].
      repeat split; try (discriminate || lia).
Qed.

Lemma _request_last_call self response api_call text :
  decode_utf8 (Response.content response) = Some text ->
  exists error,
    _last_call (_request json_loads self response api_call).2
    = Some (recorded response api_call text error).
Proof.
  intros Hdec.
  destruct (Z.le_gt_cases (Response.status_code response) 304) as [Hlow|Hhigh].
  - rewrite (_request_low_status _ _ _ text) by assumption. now exists VNone.
  - rewrite (_request_high_status _ _ _ text) by (assumption || lia).
    destruct (extract_error_message _) as [m|e]; cbn [snd]; eauto.
Qed.

Lemma extract_error_message_body (content : value) (s : string) :
  error_body content s -> extract_error_message content = Return (VStr s).
Proof.
  intros [d H|d s' H|d e rest s' H He];
    unfold extract_error_message, py_get; rewrite H; cbn.
  - reflexivity.
  - now destruct s'.
  - now rewrite He.
Qed.

(** An error response of a documented shape: [_request] raises the
    exception of the documented class, with the message of the body, the
    status code and the [retry-after] header. *)
Theorem documented_error_is_classified self response api_call text s :
  decode_utf8 (Response.content response) = Some text ->
  304 < Response.status_code response ->
  error_body (default (VDict []) (json_loads text)) s ->
  (_request json_loads self response api_call).1 =
    Raise (Twython_exc
             (documented_class (Response.status_code response)
                (substring_in "Bad Authentication data" s))
             (Msg (VStr s))
             (Some (Response.status_code response))
             (headers_get (Response.headers response) "retry-after")).
Proof.
  intros Hdec Hhigh Hbody.
  rewrite (_request_high_status _ _ _ text) by assumption.
  rewrite (extract_error_message_body _ s Hbody). cbn [fst].
  unfold exception_type, documented_class.
  destruct (_ =? 429); [reflexivity|].
  destruct (_ =? 401); [reflexivity|].
  cbn. now destruct (substring_in _ s).
Qed.

(** A body that is no JSON counts as an empty object: above 304 the
    error carries the default message. *)
Theorem non_json_error_has_default_message self response api_call text :
  decode_utf8 (Response.content response) = Some text ->
  304 < Response.status_code response ->
  json_loads text = None ->
  (_request json_loads self response api_call).1 =
    Raise (Twython_exc
             (documented_class (Response.status_code response) false)
             (Msg (VStr "An error occurred processing your request."))
             (Some (Response.status_code response))
             (headers_get (Response.headers response) "retry-after")).
Proof.
  intros Hdec Hhigh Hjson.
  rewrite (_request_high_status _ _ _ text) by assumption.
  rewrite Hjson. cbn.
  unfold exception_type, documented_class.
  destruct (_ =? 429); [reflexivity|].
  destruct (_ =? 401); reflexivity.
Qed.

(** A response whose body is not UTF-8 text: the call raises
    [UnicodeDecodeError] and the client is left as it was. *)
Theorem undecodable_body_leaves_client self response api_call :
  decode_utf8 (Response.content response) = None ->
  _request json_loads self response api_call =
    (raise_builtin UnicodeDecodeError, self).
Proof. apply _request_undecodable. Qed.

End RequestPipeline.

Section LastCallHeader.

Variable json_loads : string -> option value.
Variable __version__ : string.

Lemma after_calls_snoc (self : Twython) (calls : list (Response.t * value))
    (call : Response.t * value) :
  after_calls json_loads self (calls ++ [call])
  = (_request json_loads (after_calls json_loads self calls) call.1 call.2).2.
Proof. unfold after_calls. now rewrite fold_left_app. Qed.

Lemma get_lastfunction_header_recorded (self : Twython) (last_call : LastCall.t)
    (header : string) :
  _last_call self = Some last_call ->
  get_lastfunction_header self header =
    Return (from_option VStr VNone (headers_get (LastCall.headers last_call) header)).
Proof.
  intros H. unfold get_lastfunction_header. rewrite H.
  destruct (headers_get _ header) as [v|] eqn:Hh.
  - rewrite bool_decide_eq_true_2 by eauto. reflexivity.
  - rewrite bool_decide_eq_false_2 by (intros [? ?]; discriminate). reflexivity.
Qed.

Lemma heard_snoc (calls : list (Response.t * value)) (call : Response.t * value) :
  heard (calls ++ [call])%list
  = match decode_utf8 (Response.content call.1) with
    | Some _ => (heard calls ++ [call])%list
    | None => heard calls
    end.
Proof.
  unfold heard. rewrite filter_app.
  destruct (decode_utf8 (Response.content call.1)) as [text|] eqn:Hdec.
  - rewrite (filter_cons_True _ call []) by (rewrite Hdec; eauto). reflexivity.
  - rewrite (filter_cons_False _ call [])
      by (rewrite Hdec; intros [? ?]; discriminate).
    rewrite filter_nil. apply app_nil_r.
Qed.

Lemma after_calls_last_call (self : Twython) (calls : list (Response.t * value)) :
  match last (heard calls) with
  | None => _last_call (after_calls json_loads self calls) = _last_call self
  | Some call =>
      exists text error,
        _last_call (after_calls json_loads self calls)
        = Some (recorded call.1 call.2 text error)
  end.
Proof.
  induction calls as [|call calls IH] using rev_ind; [reflexivity|].
  rewrite heard_snoc, after_calls_snoc.
  destruct (decode_utf8 (Response.content call.1)) as [text|] eqn:Hdec.
  - rewrite last_snoc. exists text.
    now apply _request_last_call.
  - rewrite _request_undecodable by assumption. exact IH.
Qed.

(** C6, amended: on a client built by [__init__] and then used for any
    sequence of calls of the request pipeline, [get_lastfunction_header]
    raises exactly when no call of the sequence had a response whose body
    is UTF-8 text (a call whose body is not fails before the record is
    made, and counts for nothing); after such a call it returns the value
    of the named header of the last such response, or [None] when that
    response has no such header. *)
Theorem get_lastfunction_header_after_heard_calls
    (app_key app_secret oauth_token oauth_token_secret : value)
    (headers proxies : option (gmap string string)) (api_version : string)
    (ssl_verify : value) (calls : list (Response.t * value)) (header : string) :
  let self :=
    after_calls json_loads
      (__init__ __version__ app_key app_secret oauth_token oauth_token_secret
         headers proxies api_version ssl_verify) calls in
  ((exists e, get_lastfunction_header self header = Raise e) <-> heard calls = [])
  /\ match last (heard calls) with
     | None => get_lastfunction_header self header = Raise no_call_yet
     | Some call =>
         get_lastfunction_header self header =
           Return (from_option VStr VNone
                     (headers_get (Response.headers call.1) header))
     end.
Proof.
  cbn zeta.
  pose proof (after_calls_last_call
                (__init__ __version__ app_key app_secret oauth_token
                   oauth_token_secret headers proxies api_version ssl_verify)
                calls) as Hlast.
  destruct (last (heard calls)) as [call|] eqn:Hheard.
  - destruct Hlast as (text & error & Hrec).
    rewrite (get_lastfunction_header_recorded _ _ header Hrec). cbn.
    split; [|reflexivity]. split.
    + intros [e He]. discriminate.
    + intros Hnil. rewrite Hnil in Hheard. discriminate.
  - unfold get_lastfunction_header. rewrite Hlast. cbn.
    split; [|reflexivity]. split.
    + intros _. now apply last_None.
    + intros _. now eexists.
Qed.

Lemma is_none_false (v : value) : v <> VNone -> is_none v = false.
Proof. now destruct v. Qed.

Lemma is_none_spec (v : value) : v = VNone \/ v <> VNone.
Proof. destruct v; (now left) || (now right). Qed.

(** C8: [__init__] chooses the signer from the four credentials alone:
    [OAuth1] of the application key and secret exactly when these two are
    given and the two user tokens are not; [OAuth1] of all four exactly
    when all four are given; no signer ([auth = None]) in every other
    case. *)
Theorem init_signing_mode
    (app_key app_secret oauth_token oauth_token_secret : value)
    (headers proxies : option (gmap string string)) (api_version : string)
    (ssl_verify : value) :
  let auth :=
    Session.auth
      (client (__init__ __version__ app_key app_secret oauth_token
                 oauth_token_secret headers proxies api_version ssl_verify)) in
  let app_only :=
    app_key <> VNone /\ app_secret <> VNone
    /\ oauth_token = VNone /\ oauth_token_secret = VNone in
  let user_context :=
    app_key <> VNone /\ app_secret <> VNone
    /\ oauth_token <> VNone /\ oauth_token_secret <> VNone in
  (auth = Some {| client_key := app_key; client_secret := app_secret;
                  resource_owner_key := VNone; resource_owner_secret := VNone |}
   <-> app_only)
  /\ (auth = Some {| client_key := app_key; client_secret := app_secret;
                     resource_owner_key := oauth_token;
                     resource_owner_secret := oauth_token_secret |}
      /\ oauth_token <> VNone /\ oauth_token_secret <> VNone
      <-> user_context)
  /\ (auth = None <-> ~ app_only /\ ~ user_context).
Proof.
  cbn.
  destruct (is_none_spec app_key) as [-> | Hk],
           (is_none_spec app_secret) as [-> | Hs],
           (is_none_spec oauth_token) as [-> | Ht],
           (is_none_spec oauth_token_secret) as [-> | Hts];
    cbn; try rewrite (is_none_false _ Hk); try rewrite (is_none_false _ Hs);
    try rewrite (is_none_false _ Ht); try rewrite (is_none_false _ Hts); cbn;
    intuition congruence.
Qed.

End LastCallHeader.

Section Authorization.

Variable parse_qsl : string -> list (string * string).
Variable urlencode : gmap string value -> string.
Variable __version__ : string.

Lemma init_callback_url
    (app_key app_secret oauth_token oauth_token_secret : value)
    (headers proxies : option (gmap string string)) (api_version : string)
    (ssl_verify : value) :
  callback_url (__init__ __version__ app_key app_secret oauth_token
                  oauth_token_secret headers proxies api_version ssl_verify)
  = None.
Proof. reflexivity. Qed.

(** C7, as the code has it: on a client that [__init__] built, a request
    for a callback URL that the server does not confirm ends in
    [AttributeError], and no [auth_url] is returned: the old-style
    parameter is read from [self.callback_url], which nothing assigns. *)
Theorem unconfirmed_callback_raises (self : Twython)
    (requested force_login screen_name : value) (response : Response.t)
    (text : string) :
  callback_url self = None ->
  truthy requested = true ->
  Response.status_code response = 200 ->
  decode_utf8 (Response.content response) = Some text ->
  is_Some (py_dict (parse_qsl text) !! "oauth_token") ->
  py_dict (parse_qsl text) !! "oauth_callback_confirmed" <> Some "true" ->
  get_authentication_tokens parse_qsl urlencode self requested force_login
    screen_name response
  = raise_builtin AttributeError.
Proof.
  intros Hattr Hcb Hcode Hdec [token Htoken] Hconf.
  unfold get_authentication_tokens. rewrite Hcb, Hcode, Hdec. cbn.
  case_bool_decide as Hempty.
  { rewrite Hempty in Htoken. now rewrite lookup_empty in Htoken. }
  unfold auth_url_params. rewrite Htoken, Hcb. cbn.
  rewrite bool_decide_eq_false_2 by assumption. cbn.
  unfold self_callback_url. now rewrite Hattr.
Qed.

(** With the attribute assigned from outside, the old-style parameter is
    the attribute's value, whatever callback URL the caller passed. *)
Theorem unconfirmed_callback_uses_attribute (self : Twython)
    (requested force_login screen_name attribute : value)
    (response : Response.t) (text token : string) :
  callback_url self = Some attribute ->
  truthy requested = true ->
  Response.status_code response = 200 ->
  decode_utf8 (Response.content response) = Some text ->
  py_dict (parse_qsl text) !! "oauth_token" = Some token ->
  py_dict (parse_qsl text) !! "oauth_callback_confirmed" <> Some "true" ->
  exists params : gmap string value,
    params !! "oauth_callback" = Some attribute
    /\ get_authentication_tokens parse_qsl urlencode self requested
         force_login screen_name response
       = Return (<["auth_url" := authenticate_url +:+ "?" +:+ urlencode params]>
                   (py_dict (parse_qsl text))).
Proof.
  intros Hattr Hcb Hcode Hdec Htoken Hconf.
  unfold get_authentication_tokens. rewrite Hcb, Hcode, Hdec. cbn.
  case_bool_decide as Hempty.
  { rewrite Hempty in Htoken. now rewrite lookup_empty in Htoken. }
  unfold auth_url_params. rewrite Htoken, Hcb. cbn.
  rewrite bool_decide_eq_false_2 by assumption. cbn.
  unfold self_callback_url. rewrite Hattr. cbn.
  eexists. split; [|reflexivity]. apply lookup_insert_eq.
Qed.

(** C10: [get_authorized_tokens] reads the body of the response and
    nothing else of it: whatever the status code, it returns the parsed
    tokens when they are not empty and raises the plain [TwythonError]
    exactly when they are empty; [get_authentication_tokens] raises
    [TwythonAuthError] on a 401 and [TwythonError] on every other status
    that is not 200, before it looks at the body. *)
Theorem get_authorized_tokens_ignores_status (self : Twython)
    (oauth_verifier : value) (response : Response.t) (text : string) :
  decode_utf8 (Response.content response) = Some text ->
  let tokens := py_dict (parse_qsl text) in
  (tokens <> ∅ ->
   get_authorized_tokens parse_qsl self oauth_verifier response = Return tokens)
  /\ (tokens = ∅ ->
      get_authorized_tokens parse_qsl self oauth_verifier response
      = Raise (Twython_exc TwythonError
                 (Msg (VStr "Unable to decode authorized tokens.")) None None))
  /\ (forall response',
        Response.content response' = Response.content response ->
        get_authorized_tokens parse_qsl self oauth_verifier response'
        = get_authorized_tokens parse_qsl self oauth_verifier response)
  /\ (forall callback_url force_login screen_name,
        truthy callback_url = true ->
        (Response.status_code response = 401 ->
         get_authentication_tokens parse_qsl urlencode self callback_url
           force_login screen_name response
         = Raise (Twython_exc TwythonAuthError
                    (MsgBytes (Response.content response)) (Some 401) None))
        /\ (Response.status_code response <> 200 ->
            Response.status_code response <> 401 ->
            get_authentication_tokens parse_qsl urlencode self callback_url
              force_login screen_name response
            = Raise (Twython_exc TwythonError
                       (MsgBytes (Response.content response))
                       (Some (Response.status_code response)) None))).
Proof.
  intros Hdec tokens. subst tokens.
  unfold get_authorized_tokens. rewrite Hdec.
  split; [|split; [|split]].
  - intros Hne. now rewrite bool_decide_eq_false_2.
  - intros He. now rewrite bool_decide_eq_true_2.
  - intros response' Hsame. now rewrite Hsame, Hdec.
  - intros requested force_login screen_name Hcb.
    unfold get_authentication_tokens. rewrite Hcb. cbn. split.
    + intros Hcode. now rewrite Hcode.
    + intros H200 H401.
      replace (_ =? 401) with false by lia.
      replace (_ =? 200) with false by lia. reflexivity.
Qed.

End Authorization.

Section SearchGenerator.

Variable int_of_str : string -> option Z.

Implicit Types (params : gmap string value) (d fields : list (string * value)).

Lemma search_gen_page_list params d first rest :
  assoc "statuses" d = Some (VList (first :: rest)) ->
  search_gen_page int_of_str params (VDict d) =
    (first :: rest,
     match next_params int_of_str params (VDict d) with
     | Return params' => Next params'
     | Raise e => Fail e
     end).
Proof. intros H. unfold search_gen_page, py_get. now rewrite H. Qed.

Lemma first_id_list d fields rest id_str :
  assoc "statuses" d = Some (VList (VDict fields :: rest)) ->
  assoc "id_str" fields = Some id_str ->
  first_id int_of_str (VDict d) = py_int int_of_str id_str.
Proof.
  intros Hd Hf. unfold first_id, getitem_str. rewrite Hd. cbn. now rewrite Hf.
Qed.



(** A first status without an [id_str], once the page has been yielded:
    the [KeyError] is none of the errors the [try] block catches, and it
    leaves the generator as it is. *)
Theorem missing_id_str_escapes params d fields rest :
  assoc "statuses" d = Some (VList (VDict fields :: rest)) ->
  params !! "since_id" = None ->
  assoc "id_str" fields = None ->
  search_gen_page int_of_str params (VDict d)
  = (VDict fields :: rest, Fail (Builtin_exc KeyError)).
Proof.
  intros Hd Hnone Hid. rewrite (search_gen_page_list _ _ _ _ Hd).
  unfold next_params, first_id, getitem_str. rewrite Hnone, Hd. cbn.
  now rewrite Hid.
Qed.

Lemma search_gen_page_pinned params content tweets params' :
  is_Some (params !! "since_id") ->
  search_gen_page int_of_str params content = (tweets, Next params') ->
  params' = params.
Proof.
  intros [v Hv]. unfold search_gen_page, next_params. rewrite Hv.
  intros H. repeat (case_match; simplify_eq/=). reflexivity.
Qed.

Lemma yields_search_nothing (kwargs : gmap string value) (tweets : list value) :
  Forall (searches_with kwargs) (Yielded <$> tweets).
Proof. apply Forall_fmap, Forall_true. intros tweet. exact I. Qed.

(** Once [since_id] is among the parameters it stays what it is: every
    call of [search] the generator makes, on whatever pages it receives,
    has the keyword arguments of its first call. *)
Theorem pinned_since_id_never_moves (json_loads : string -> option value)
    (self : Twython) (search_query : value) params
    (responses : list Response.t) :
  is_Some (params !! "since_id") ->
  Forall (searches_with (<["q" := search_query]> params))
    (search_gen json_loads int_of_str self search_query params responses).1.1.
Proof.
  intros Hpinned. revert self.
  induction responses as [|response rest IH]; intros self; cbn [search_gen].
  - destruct (params !! "q"); constructor.
  - destruct (params !! "q"); [constructor|].
    destruct (search json_loads self response) as [[content|e] self1].
    + destruct (search_gen_page int_of_str params content)
        as [tweets after] eqn:Hpage.
      destruct after as [|params'|e].
      * constructor; [reflexivity|apply yields_search_nothing].
      * apply search_gen_page_pinned in Hpage as ->; [|assumption].
        specialize (IH self1).
        destruct (search_gen json_loads int_of_str self1 search_query params rest)
          as [[events fin] self2].
        constructor; [reflexivity|].
        apply Forall_app. split; [apply yields_search_nothing|exact IH].
      * constructor; [reflexivity|apply yields_search_nothing].
    + constructor; [reflexivity|constructor].
Qed.

End SearchGenerator.

(** * The documented scenarios and other concrete calls *)

(** Scenario E: status 200 with the body [not json]. *)
Lemma malformed_json_accepted_status_witness :
  (_request sample_loads sample_client (respond 200 "not json" []) VNone).1
  = Return (VDict []).
Proof.
  apply (malformed_json_accepted_status sample_loads sample_client
           (respond 200 "not json" []) VNone "not json");
    [reflexivity | reflexivity | left; reflexivity].
Defined.

(** C2, as stated, fails on a 204 with its empty body: the status is below
    305 and the call raises. *)
Lemma no_content_204_raises :
  Response.status_code (respond 204 EmptyString []) <= 304
  /\ sample_loads EmptyString = None
  /\ (_request sample_loads sample_client (respond 204 EmptyString []) VNone).1
     = Raise (Twython_exc TwythonError
                (Msg (VStr "Response was not valid JSON, unable to decode."))
                None None).
Proof. repeat split. cbn. lia. Qed.

Lemma low_status_returns_unless_bad_json_witness :
  (is_Some (sample_loads body_no_statuses)
   \/ 203 = 200 \/ 203 = 201 \/ 203 = 202 ->
   exists v,
     (_request sample_loads sample_client (respond 203 body_no_statuses []) VNone).1
     = Return v)
  /\ (sample_loads body_no_statuses = None ->
      203 <> 200 -> 203 <> 201 -> 203 <> 202 ->
      (_request sample_loads sample_client (respond 203 body_no_statuses []) VNone).1
      = Raise invalid_json).
Proof.
  apply (low_status_returns_unless_bad_json sample_loads sample_client
           (respond 203 body_no_statuses []) VNone body_no_statuses);
    [reflexivity | cbn; lia].
Defined.

(** C9, as stated, fails on a 304 with its empty body: the call fails, and
    the record it leaves holds no error message. *)
Lemma not_modified_304_records_no_error :
  let call :=
    _request sample_loads sample_client (respond 304 EmptyString [])
      (VStr "https://api.twitter.com/1.1/statuses/home_timeline.json") in
  call.1 = Raise (Twython_exc TwythonError
                    (Msg (VStr "Response was not valid JSON, unable to decode."))
                    None None)
  /\ LastCall.api_error <$> _last_call call.2 = Some VNone.
Proof. split; reflexivity. Qed.

(** Scenario C, as the record keeps it. *)
Lemma request_overwrites_last_call_witness :
  exists error,
    _last_call
      (_request sample_loads sample_client (respond 401 body_expired_token [])
         (VStr "https://api.twitter.com/1.1/account/verify_credentials.json")).2
    = Some (recorded (respond 401 body_expired_token [])
              (VStr "https://api.twitter.com/1.1/account/verify_credentials.json")
              body_expired_token error)
    /\ (forall v,
          (_request sample_loads sample_client (respond 401 body_expired_token [])
             (VStr "https://api.twitter.com/1.1/account/verify_credentials.json")).1
          = Return v -> error = VNone)
    /\ (401 <= 304 -> error = VNone)
    /\ (forall cls m code retry,
          304 < 401 ->
          (_request sample_loads sample_client (respond 401 body_expired_token [])
             (VStr "https://api.twitter.com/1.1/account/verify_credentials.json")).1
          = Raise (Twython_exc cls m code retry) ->
          m = Msg error /\ code = Some 401).
Proof.
  apply (request_overwrites_last_call sample_loads sample_client
           (respond 401 body_expired_token [])
           (VStr "https://api.twitter.com/1.1/account/verify_credentials.json")
           body_expired_token).
  reflexivity.
Defined.

(** C1 at a 500 whose [errors] is the number 5: the message to carry is
    5 and the class to raise is the plain [TwythonError]; what leaves
    [_request] is the [TypeError] of ['Bad Authentication data' in 5]. *)
Lemma scalar_errors_raise_TypeError :
  304 < Response.status_code (respond 500 body_scalar_errors [])
  /\ sample_loads body_scalar_errors = Some (VDict [("errors", VInt 5)])
  /\ extract_error_message (VDict [("errors", VInt 5)]) = Return (VInt 5)
  /\ (_request sample_loads sample_client
        (respond 500 body_scalar_errors []) VNone).1
     = Raise (Builtin_exc TypeError).
Proof. repeat split. Qed.

(** C5 at three bodies that are JSON and not of the documented shape: an
    [errors] list whose object has no [message] (404), an [errors] that is
    [null] (500) and a body that is a list (503).  Each time a builtin
    exception leaves [_request]: [KeyError], [TypeError],
    [AttributeError]. *)
Lemma undocumented_error_shapes_escape :
  (sample_loads body_errors_without_message
   = Some (VDict [("errors", VList [VDict [("code", VInt 34)]])])
   /\ (_request sample_loads sample_client
         (respond 404 body_errors_without_message []) VNone).1
      = Raise (Builtin_exc KeyError))
  /\ (sample_loads body_null_errors = Some (VDict [("errors", VNone)])
      /\ (_request sample_loads sample_client
            (respond 500 body_null_errors []) VNone).1
         = Raise (Builtin_exc TypeError))
  /\ (sample_loads "[]" = Some (VList [])
      /\ (_request sample_loads sample_client (respond 503 "[]" []) VNone).1
         = Raise (Builtin_exc AttributeError)).
Proof. repeat split. Qed.

(** Scenario C: a 401 with the message of an expired token. *)
Lemma documented_error_is_classified_witness :
  (_request sample_loads sample_client (respond 401 body_expired_token []) VNone).1
  = Raise (Twython_exc TwythonAuthError (Msg (VStr "Invalid or expired token."))
             (Some 401) None).
Proof.
  apply (documented_error_is_classified sample_loads sample_client
           (respond 401 body_expired_token []) VNone body_expired_token
           "Invalid or expired token.");
    [reflexivity | cbn; lia |].
  apply (error_body_list _ [("message", VStr "Invalid or expired token.")] []);
    reflexivity.
Defined.

(** Scenario D: a 429 with [retry-after: 30]. *)
Lemma non_json_error_has_default_message_witness :
  (_request sample_loads sample_client
     (respond 429 "Rate limit exceeded" [("retry-after", "30")]) VNone).1
  = Raise (Twython_exc TwythonRateLimitError
             (Msg (VStr "An error occurred processing your request."))
             (Some 429) (Some "30")).
Proof.
  apply (non_json_error_has_default_message sample_loads sample_client
           (respond 429 "Rate limit exceeded" [("retry-after", "30")]) VNone
           "Rate limit exceeded");
    [reflexivity | cbn; lia | reflexivity].
Defined.

(** The two bytes C3 28 are no UTF-8. *)
Lemma undecodable_body_leaves_client_witness :
  _request sample_loads sample_client
    {| Response.content := [xc3; x28]; Response.status_code := 200;
       Response.headers := ∅; Response.cookies := [];
       Response.url := "https://api.twitter.com/1.1/search/tweets.json" |}
    VNone
  = (raise_builtin UnicodeDecodeError, sample_client).
Proof.
  apply (undecodable_body_leaves_client sample_loads sample_client). reflexivity.
Defined.

(** C6, as stated, fails after a call whose response body is no UTF-8:
    a call has been made, and the lookup raises as before any call. *)
Lemma garbled_call_leaves_no_record :
  [(garbled_response, VNone)] <> []
  /\ (_request sample_loads sample_client garbled_response VNone).1
     = Raise (Builtin_exc UnicodeDecodeError)
  /\ get_lastfunction_header
       (after_calls sample_loads sample_client [(garbled_response, VNone)])
       "x-rate-limit-remaining"
     = Raise (Twython_exc TwythonError
                (Msg (VStr "This function must be called after an API call.  It delivers header information."))
                None None).
Proof. repeat split. discriminate. Qed.

(** Scenario F, and two calls followed by one whose body is no UTF-8:
    the header is that of the second call. *)
Lemma get_lastfunction_header_after_heard_calls_witness :
  ((exists e,
      get_lastfunction_header
        (after_calls sample_loads sample_client
           (sample_calls ++ [(garbled_response, VNone)]))
        "X-Rate-Limit-Remaining" = Raise e)
   <-> heard (sample_calls ++ [(garbled_response, VNone)]) = [])
  /\ get_lastfunction_header
       (after_calls sample_loads sample_client
          (sample_calls ++ [(garbled_response, VNone)]))
       "X-Rate-Limit-Remaining"
     = Return (VStr "0").
Proof.
  exact (get_lastfunction_header_after_heard_calls sample_loads "3.0.0"
           (VStr "APP_KEY") (VStr "APP_SECRET") VNone VNone None None "1.1"
           (VBool true) (sample_calls ++ [(garbled_response, VNone)])
           "X-Rate-Limit-Remaining").
Defined.

Lemma unconfirmed_callback_raises_witness :
  get_authentication_tokens sample_parse_qsl sample_urlencode sample_client
    (VStr "http://example.com/cb") (VBool false) (VStr EmptyString)
    (respond 200 body_unconfirmed [])
  = Raise (Builtin_exc AttributeError).
Proof.
  apply (unconfirmed_callback_raises sample_parse_qsl sample_urlencode
           sample_client (VStr "http://example.com/cb") (VBool false)
           (VStr EmptyString) (respond 200 body_unconfirmed []) body_unconfirmed);
    try reflexivity.
  - eexists; reflexivity.
  - vm_compute. discriminate.
Defined.

Lemma unconfirmed_callback_uses_attribute_witness :
  exists params : gmap string value,
    params !! "oauth_callback" = Some (VStr "http://old.example/cb")
    /\ get_authentication_tokens sample_parse_qsl sample_urlencode
         sample_client_with_attribute (VStr "http://example.com/cb")
         (VBool false) (VStr EmptyString) (respond 200 body_tokens [])
       = Return (<["auth_url" :=
                     authenticate_url +:+ "?" +:+ sample_urlencode params]>
                   (py_dict (sample_parse_qsl body_tokens))).
Proof.
  apply (unconfirmed_callback_uses_attribute sample_parse_qsl sample_urlencode
           sample_client_with_attribute (VStr "http://example.com/cb")
           (VBool false) (VStr EmptyString) (VStr "http://old.example/cb")
           (respond 200 body_tokens []) body_tokens "abc");
    try reflexivity.
  vm_compute. discriminate.
Defined.

(** A 403 answer to the token exchange whose body still parses. *)
Lemma get_authorized_tokens_ignores_status_witness :
  get_authorized_tokens sample_parse_qsl sample_client (VStr "1234567")
    (respond 403 body_tokens [])
  = Return (py_dict (sample_parse_qsl body_tokens)).
Proof.
  refine (proj1 (get_authorized_tokens_ignores_status sample_parse_qsl
                   sample_urlencode sample_client (VStr "1234567")
                   (respond 403 body_tokens []) body_tokens eq_refl) _).
  intros H.
  assert (Hl := f_equal (fun m : gmap string string => m !! "oauth_token") H).
  vm_compute in Hl. discriminate Hl.
Defined.

(** Scenarios A and B in a row: the page of two tweets, then an empty
    one. *)
Example search_gen_two_pages :
  (search_gen sample_loads ascii_int sample_client (VStr "python") ∅
     [respond 200 body_two_statuses []; respond 200 body_no_statuses []]).1
  = ([ Searched {[ "q" := VStr "python" ]};
       Yielded (tweet "5"); Yielded (tweet "3");
       Searched (<["q" := VStr "python"]> {[ "since_id" := VInt 6 ]}) ],
     Exhausted).
Proof. vm_compute. reflexivity. Qed.

(** A first tweet that has an [id] and no [id_str]. *)
Lemma missing_id_str_escapes_witness :
  search_gen_page ascii_int ∅
    (VDict [("statuses", VList [VDict [("id", VInt 5)]; tweet "3"])])
  = ([VDict [("id", VInt 5)]; tweet "3"], Fail (Builtin_exc KeyError)).
Proof.
  apply (missing_id_str_escapes ascii_int ∅
           [("statuses", VList [VDict [("id", VInt 5)]; tweet "3"])]
           [("id", VInt 5)] [tweet "3"]);
    reflexivity.
Defined.

(** A search pinned at 6 that receives a tweet "9": the next call asks
    for [since_id=6] again. *)
Lemma pinned_since_id_never_moves_witness :
  Forall (searches_with (<["q" := VStr "python"]> {[ "since_id" := VInt 6 ]}))
    (search_gen sample_loads ascii_int sample_client (VStr "python")
       {[ "since_id" := VInt 6 ]}
       [respond 200 body_two_statuses []; respond 200 body_no_statuses []]).1.1.
Proof.
  apply (pinned_since_id_never_moves ascii_int sample_loads sample_client (VStr "python")
           {[ "since_id" := VInt 6 ]}
           [respond 200 body_two_statuses []; respond 200 body_no_statuses []]).
  eexists. reflexivity.
Defined.

(** * More of the request pipeline *)

Section RequestResults.

Variable json_loads : string -> option value.

Implicit Types (self : Twython) (response : Response.t) (api_call : value).

Lemma _request_above_304_raises self response api_call :
  304 < Response.status_code response ->
  exists e, (_request json_loads self response api_call).1 = Raise e.
Proof.
  intros Hhigh.
  destruct (decode_utf8 (Response.content response)) as [text|] eqn:Hdec.
  - rewrite (_request_high_status _ _ _ _ text) by assumption.
    destruct (extract_error_message _) as [m|e]; cbn [fst]; [|eauto].
    destruct (exception_type _ m); eauto.
  - rewrite _request_undecodable by assumption. cbn. eauto.
Qed.

(** [_request] returns a value only for a status of at most 304, and the
    value is the body as [json.loads] reads it; the one other value it
    returns is the empty dict, for a body that is no JSON under a status
    of 200, 201 or 202. *)
Theorem request_returns_the_parsed_body self response api_call v :
  (_request json_loads self response api_call).1 = Return v ->
  Response.status_code response <= 304
  /\ exists text,
       decode_utf8 (Response.content response) = Some text
       /\ (json_loads text = Some v
           \/ (json_loads text = None /\ v = VDict []
               /\ (Response.status_code response = 200
                   \/ Response.status_code response = 201
                   \/ Response.status_code response = 202))).
Proof.
  intros Hret.
  destruct (Z.le_gt_cases (Response.status_code response) 304) as [Hlow|Hhigh].
  - split; [assumption|].
    destruct (decode_utf8 (Response.content response)) as [text|] eqn:Hdec.
    + exists text. split; [reflexivity|].
      rewrite (_request_low_status _ _ _ _ text) in Hret by assumption.
      cbn [fst] in Hret.
      destruct (json_loads text) as [v'|]; [left; congruence|right].
      destruct (accepted_status _) eqn:Hacc; [|discriminate].
      apply accepted_status_spec in Hacc. split; [reflexivity|].
      split; [congruence|assumption].
    + rewrite _request_undecodable in Hret by assumption. discriminate.
  - destruct (_request_above_304_raises self response api_call) as [e He]; [lia|].
    congruence.
Qed.

(** What an exception of the module that leaves [_request] tells about
    the response: [TwythonRateLimitError] is raised for a 429 and for
    nothing else; [TwythonAuthError] only for a 401 or a message that
    holds "Bad Authentication data"; an exception without an error code
    is the invalid-JSON one, of a status of at most 304; every other one
    carries the status code and the [retry-after] header. *)
Theorem twython_exception_tells_status self response api_call cls m code retry :
  (_request json_loads self response api_call).1
  = Raise (Twython_exc cls m code retry) ->
  (cls = TwythonRateLimitError <-> Response.status_code response = 429)
  /\ (cls = TwythonAuthError ->
      Response.status_code response = 401
      \/ exists v, m = Msg v /\ py_in "Bad Authentication data" v = Return true)
  /\ (Response.status_code response <= 304 ->
      Twython_exc cls m code retry = invalid_json)
  /\ (304 < Response.status_code response ->
      code = Some (Response.status_code response)
      /\ retry = headers_get (Response.headers response) "retry-after").
Proof.
  intros Hraise.
  destruct (decode_utf8 (Response.content response)) as [text|] eqn:Hdec;
    [|rewrite _request_undecodable in Hraise by assumption; discriminate].
  destruct (Z.le_gt_cases (Response.status_code response) 304) as [Hlow|Hhigh].
  - rewrite (_request_low_status _ _ _ _ text) in Hraise by assumption.
    cbn [fst] in Hraise.
    destruct (json_loads text); [discriminate|].
    destruct (accepted_status _); [discriminate|].
    unfold invalid_json in *. simplify_eq.
    repeat split; try (discriminate || lia || reflexivity).
  - rewrite (_request_high_status _ _ _ _ text) in Hraise by (assumption || lia).
    destruct (extract_error_message _) as [msg|e] eqn:Hm; cbn [fst] in Hraise.
    + destruct (exception_type _ msg) as [c|e] eqn:Hc.
      * simplify_eq. unfold exception_type in Hc.
        destruct (Z.eqb_spec (Response.status_code response) 429) as [H429|H429].
        { simplify_eq. repeat split; try (discriminate || lia || reflexivity).
          all: intros; assumption. }
        destruct (Z.eqb_spec (Response.status_code response) 401) as [H401|H401].
        { simplify_eq. repeat split; try (discriminate || lia || reflexivity).
          all: intros; auto. }
        destruct (py_in _ msg) as [[|]|] eqn:Hin; simplify_eq/=.
        -- repeat split; try (discriminate || lia || reflexivity).
           intros _. right. eauto.
        -- repeat split; try (discriminate || lia || reflexivity).
      * apply exception_type_raises in Hc. simplify_eq.
    + apply extract_error_message_raises in Hm as [c ->]. simplify_eq.
Qed.

(** Above 304 and with a body that is text, [_request] always raises, and
    what it raises is an exception of the module exactly for the body
    shapes of [classifiable]; for every other shape a builtin exception
    leaves it. *)
Theorem typed_error_iff_classifiable self response api_call text :
  decode_utf8 (Response.content response) = Some text ->
  304 < Response.status_code response ->
  exists e,
    (_request json_loads self response api_call).1 = Raise e
    /\ is_twython e
       = classifiable (Response.status_code response)
           (default (VDict []) (json_loads text)).
Proof.
  intros Hdec Hhigh.
  rewrite (_request_high_status _ _ _ _ text) by assumption.
  generalize (default (VDict []) (json_loads text)). intros content.
  unfold extract_error_message, exception_type, classifiable, class_defined,
    default_errors, py_get, getitem_0, getitem_str, py_in, raise_builtin.
  destruct (Response.status_code response =? 429),
           (Response.status_code response =? 401);
    repeat (case_match; simplify_eq/=; rewrite ?andb_false_r in *);
    try discriminate; eauto.
Qed.

Lemma _request_keeps_client self response api_call :
  let self' := (_request json_loads self response api_call).2 in
  api_version self' = api_version self
  /\ app_key self' = app_key self /\ app_secret self' = app_secret self
  /\ oauth_token self' = oauth_token self
  /\ oauth_token_secret self' = oauth_token_secret self
  /\ client self' = client self
  /\ callback_url self' = callback_url self.
Proof.
  unfold _request.
  repeat (case_match; simplify_eq/=); repeat split; reflexivity.
Qed.

(** Calls of [_request] change nothing of the client but
    [self._last_call]: the API version, the four credentials, the session
    with its signer and headers and the [callback_url] attribute are after
    any sequence of calls, failed ones included, what they were before. *)
Theorem calls_keep_credentials_and_session self
    (calls : list (Response.t * value)) :
  let self' := after_calls json_loads self calls in
  api_version self' = api_version self
  /\ app_key self' = app_key self /\ app_secret self' = app_secret self
  /\ oauth_token self' = oauth_token self
  /\ oauth_token_secret self' = oauth_token_secret self
  /\ client self' = client self
  /\ callback_url self' = callback_url self.
Proof.
  cbn zeta. revert self.
  induction calls as [|call calls IH]; intros self; [repeat split|].
  cbn [after_calls fold_left].
  specialize (IH (_request json_loads self call.1 call.2).2).
  unfold after_calls in IH.
  destruct (_request_keeps_client self call.1 call.2)
    as (H1 & H2 & H3 & H4 & H5 & H6 & H7).
  destruct IH as (I1 & I2 & I3 & I4 & I5 & I6 & I7).
  unfold after_calls.
  repeat split; congruence.
Qed.

End RequestResults.

(** * The constructor and the request facade *)

Section Facade.

Variable json_loads : string -> option value.
Variable __version__ : string.

(** The headers of the session [__init__] builds: every header the caller
    gives is sent as given, the [User-Agent] of the module is sent when the
    caller gives none under exactly that name, and nothing else is sent.
    Names are compared as they are written, so a caller's [user-agent] is
    sent beside the module's [User-Agent]. *)
Theorem init_headers_caller_wins
    (app_key app_secret oauth_token oauth_token_secret : value)
    (headers proxies : option (gmap string string)) (api_version : string)
    (ssl_verify : value) :
  let sent :=
    Session.headers
      (client (__init__ __version__ app_key app_secret oauth_token
                 oauth_token_secret headers proxies api_version ssl_verify)) in
  let given (name : string) : option string := headers ≫= (.!! name) in
  (forall name v, given name = Some v -> sent !! name = Some v)
  /\ (given "User-Agent" = None ->
      sent !! "User-Agent" = Some ("Twython v" +:+ __version__))
  /\ (forall name, name <> "User-Agent" -> sent !! name = given name).
Proof.
  intros sent given. subst sent given. unfold __init__. cbn.
  destruct headers as [h|]; cbn.
  - case_bool_decide as Hempty.
    + rewrite Hempty. split; [|split].
      * intros name v H. now rewrite lookup_empty in H.
      * intros _. apply lookup_singleton_eq.
      * intros name Hname. rewrite lookup_empty.
        now apply lookup_singleton_ne.
    + split; [|split].
      * intros name v H. now apply lookup_union_Some_l.
      * intros H. rewrite lookup_union_r by assumption.
        apply lookup_singleton_eq.
      * intros name Hname. apply lookup_union_l.
        now apply lookup_singleton_ne.
  - split; [|split].
    + discriminate.
    + intros _. apply lookup_singleton_eq.
    + intros name Hname. now apply lookup_singleton_ne.
Qed.

Lemma request_url_is_full (endpoint version : string) :
  String.prefix "http://" (request_url endpoint version)
  || String.prefix "https://" (request_url endpoint version) = true.
Proof.
  unfold request_url.
  destruct (String.prefix "http://" endpoint || String.prefix "https://" endpoint)
    eqn:Hfull; [assumption|].
  reflexivity.
Qed.

(** The URL [request] computes is one it takes verbatim: given back as the
    endpoint, under any version, it is requested as it is.  [request]
    stores that URL as [api_call] in the last-call record, so the recorded
    [api_call] of a call can be requested again. *)
Theorem request_url_is_stable (self : Twython) (endpoint version version' : string)
    (response : Response.t) (text : string) :
  decode_utf8 (Response.content response) = Some text ->
  request_url (request_url endpoint version) version' = request_url endpoint version
  /\ exists error,
       _last_call (request json_loads self endpoint version response).2
       = Some (recorded response (VStr (request_url endpoint version)) text error).
Proof.
  intros Hdec. split.
  - unfold request_url at 1. now rewrite request_url_is_full.
  - unfold request. now apply _request_last_call.
Qed.

End Facade.

(** * More of the authorisation helpers *)

Section AuthenticationTokens.

Variable parse_qsl : string -> list (string * string).
Variable urlencode : gmap string value -> string.

Implicit Types (self : Twython) (response : Response.t).

(** Without a callback URL, on a client whose [callback_url] attribute
    nothing has assigned (every client [__init__] returns),
    [get_authentication_tokens] raises [AttributeError] whatever the
    response is: the default of the argument is read from the
    attribute. *)
Theorem no_callback_raises self (requested force_login screen_name : value)
    response :
  callback_url self = None ->
  truthy requested = false ->
  get_authentication_tokens parse_qsl urlencode self requested force_login
    screen_name response
  = raise_builtin AttributeError.
Proof.
  intros Hattr Hcb. unfold get_authentication_tokens, self_callback_url.
  now rewrite Hcb, Hattr.
Qed.

(** A 200 whose tokens hold [oauth_token] and confirm the callback: the
    call returns, on any client, the tokens of the server with [auth_url]
    added; the URL carries no [oauth_callback], and every token of the
    server but one named [auth_url] is returned as sent. *)
Theorem confirmed_callback_returns_tokens self
    (requested force_login screen_name : value) response (text token : string) :
  truthy requested = true ->
  Response.status_code response = 200 ->
  decode_utf8 (Response.content response) = Some text ->
  py_dict (parse_qsl text) !! "oauth_token" = Some token ->
  py_dict (parse_qsl text) !! "oauth_callback_confirmed" = Some "true" ->
  exists tokens,
    get_authentication_tokens parse_qsl urlencode self requested force_login
      screen_name response = Return tokens
    /\ tokens !! "auth_url"
       = Some (authenticate_url +:+ "?"
               +:+ urlencode (confirmed_params token force_login screen_name))
    /\ confirmed_params token force_login screen_name !! "oauth_callback" = None
    /\ forall name, name <> "auth_url" ->
                    tokens !! name = py_dict (parse_qsl text) !! name.
Proof.
  intros Hcb Hcode Hdec Htoken Hconf.
  unfold get_authentication_tokens. rewrite Hcb, Hcode, Hdec. cbn.
  case_bool_decide as Hempty.
  { rewrite Hempty in Htoken. now rewrite lookup_empty in Htoken. }
  unfold auth_url_params. rewrite Htoken, Hcb. cbn.
  rewrite bool_decide_eq_true_2 by assumption. cbn.
  eexists. split; [reflexivity|]. split; [|split].
  - rewrite lookup_insert_eq. reflexivity.
  - unfold confirmed_params. destruct (truthy force_login).
    + now rewrite !lookup_insert_ne, lookup_singleton_ne by discriminate.
    + now rewrite lookup_singleton_ne by discriminate.
  - intros name Hname. now rewrite lookup_insert_ne by congruence.
Qed.

(** A 200 whose body holds no token at all: the plain [TwythonError],
    with no error code. *)
Theorem empty_request_tokens_raise self
    (requested force_login screen_name : value) response (text : string) :
  truthy requested = true ->
  Response.status_code response = 200 ->
  decode_utf8 (Response.content response) = Some text ->
  py_dict (parse_qsl text) = ∅ ->
  get_authentication_tokens parse_qsl urlencode self requested force_login
    screen_name response
  = Raise (Twython_exc TwythonError
             (Msg (VStr "Unable to decode request tokens.")) None None).
Proof.
  intros Hcb Hcode Hdec Hempty.
  unfold get_authentication_tokens. rewrite Hcb, Hcode, Hdec. cbn.
  now rewrite bool_decide_eq_true_2.
Qed.

(** A 200 whose body holds tokens and no [oauth_token] among them: what
    leaves the call is the [KeyError] of [request_tokens['oauth_token']],
    whether the callback was confirmed or not. *)
Theorem missing_oauth_token_raises_KeyError self
    (requested force_login screen_name : value) response (text : string) :
  truthy requested = true ->
  Response.status_code response = 200 ->
  decode_utf8 (Response.content response) = Some text ->
  py_dict (parse_qsl text) <> ∅ ->
  py_dict (parse_qsl text) !! "oauth_token" = None ->
  get_authentication_tokens parse_qsl urlencode self requested force_login
    screen_name response
  = raise_builtin KeyError.
Proof.
  intros Hcb Hcode Hdec Hne Htoken.
  unfold get_authentication_tokens. rewrite Hcb, Hcode, Hdec. cbn.
  rewrite bool_decide_eq_false_2 by assumption.
  unfold auth_url_params. now rewrite Htoken.
Qed.

End AuthenticationTokens.

(** * More of the search generator *)

Section GeneratorRuns.

Variable json_loads : string -> option value.
Variable int_of_str : string -> option Z.

Implicit Types (self : Twython) (response : Response.t)
  (params : gmap string value) (d fields : list (string * value)).

Lemma search_low_status self response text :
  decode_utf8 (Response.content response) = Some text ->
  Response.status_code response <= 304 ->
  search json_loads self response =
    (match json_loads text with
     | Some v => Return v
     | None =>
         if accepted_status (Response.status_code response)
         then Return (VDict []) else Raise invalid_json
     end,
     searched self response text VNone).
Proof.
  intros Hdec Hlow. unfold search, get, request.
  now apply _request_low_status.
Qed.

Lemma search_gen_page_no_statuses params d :
  (forall statuses, assoc "statuses" d = Some statuses -> truthy statuses = false) ->
  search_gen_page int_of_str params (VDict d) = ([], Stop).
Proof.
  intros H. unfold search_gen_page, py_get.
  destruct (assoc "statuses" d) as [statuses|]; cbn; [|reflexivity].
  now rewrite (H statuses).
Qed.

(** A page without tweets ends the generator at once, with no tweet and
    no error, whatever responses would follow: a page whose body is an
    object with no [statuses], or with a [statuses] that is empty or
    [null], and also a 200, 201 or 202 whose body is no JSON at all. *)
Theorem page_without_statuses_ends_generator self (search_query : value) params
    response (rest : list Response.t) (text : string) :
  params !! "q" = None ->
  decode_utf8 (Response.content response) = Some text ->
  Response.status_code response <= 304 ->
  (exists d,
     json_loads text = Some (VDict d)
     /\ forall statuses,
          assoc "statuses" d = Some statuses -> truthy statuses = false)
  \/ (json_loads text = None
      /\ accepted_status (Response.status_code response) = true) ->
  search_gen json_loads int_of_str self search_query params (response :: rest)
  = ([Searched (<["q" := search_query]> params)], Exhausted,
     searched self response text VNone).
Proof.
  intros Hq Hdec Hlow Hpage. cbn [search_gen]. rewrite Hq.
  rewrite (search_low_status _ _ text) by assumption.
  destruct Hpage as [(d & Hjson & Hd)|[Hjson Hacc]]; rewrite Hjson.
  - now rewrite (search_gen_page_no_statuses _ _ Hd).
  - rewrite Hacc. rewrite (search_gen_page_no_statuses params []); [reflexivity|].
    discriminate.
Qed.

(** A page with a status above 304 makes the generator raise what
    [_request] raises for it, before it yields anything of the page and
    without a further call. *)
Theorem error_page_raises_from_generator self (search_query : value) params
    response (rest : list Response.t) :
  params !! "q" = None ->
  304 < Response.status_code response ->
  exists e,
    (_request json_loads self response
       (VStr (request_url "search/tweets" "1.1"))).1 = Raise e
    /\ search_gen json_loads int_of_str self search_query params (response :: rest)
       = ([Searched (<["q" := search_query]> params)], Raised e,
          (_request json_loads self response
             (VStr (request_url "search/tweets" "1.1"))).2).
Proof.
  intros Hq Hhigh.
  destruct (_request_above_304_raises json_loads self response
              (VStr (request_url "search/tweets" "1.1")) Hhigh) as [e He].
  exists e. split; [assumption|].
  cbn [search_gen]. rewrite Hq. unfold search, get, request.
  destruct (_request json_loads self response _) as [result self'].
  cbn [fst] in He. subst result. reflexivity.
Qed.

Lemma search_gen_pinned self (search_query : value) params
    (responses : list Response.t) :
  is_Some (params !! "since_id") ->
  let run := search_gen json_loads int_of_str self search_query params responses in
  Forall (searches_with (<["q" := search_query]> params)) run.1.1
  /\ forall params', run.1.2 = Waiting params' -> params' = params.
Proof.
  intros Hpinned. cbn zeta. revert self.
  induction responses as [|response rest IH]; intros self; cbn [search_gen].
  - destruct (params !! "q"); cbn; split; try constructor; congruence.
  - destruct (params !! "q"); [cbn; split; [constructor|discriminate]|].
    destruct (search json_loads self response) as [[content|e] self1].
    + destruct (search_gen_page int_of_str params content) as [tweets after] eqn:Hpage.
      destruct after as [|params'|e].
      * cbn. split; [|discriminate].
        constructor; [reflexivity|apply yields_search_nothing].
      * apply search_gen_page_pinned in Hpage as ->; [|assumption].
        specialize (IH self1).
        destruct (search_gen json_loads int_of_str self1 search_query params rest)
          as [[events fin] self2].
        cbn in *. destruct IH as [IHev IHfin]. split; [|assumption].
        constructor; [reflexivity|].
        apply Forall_app. split; [apply yields_search_nothing|exact IHev].
      * cbn. split; [|discriminate].
        constructor; [reflexivity|apply yields_search_nothing].
    + cbn. split; [|discriminate]. constructor; [reflexivity|constructor].
Qed.

Lemma search_gen_list_page self (search_query : value) params params' response
    (rest : list Response.t) (text : string) d (first : value)
    (others : list value) :
  params !! "q" = None ->
  decode_utf8 (Response.content response) = Some text ->
  Response.status_code response <= 304 ->
  json_loads text = Some (VDict d) ->
  assoc "statuses" d = Some (VList (first :: others)) ->
  next_params int_of_str params (VDict d) = Return params' ->
  search_gen json_loads int_of_str self search_query params (response :: rest)
  = (let '(events, fin, self') :=
       search_gen json_loads int_of_str (searched self response text VNone) search_query
         params' rest in
     ((Searched (<["q" := search_query]> params)
         :: (Yielded <$> (first :: others)) ++ events)%list, fin, self')).
Proof.
  intros Hq Hdec Hlow Hjson Hd Hnext. cbn [search_gen]. rewrite Hq.
  rewrite (search_low_status _ _ text) by assumption. rewrite Hjson.
  rewrite (search_gen_page_list int_of_str _ _ _ _ Hd), Hnext. reflexivity.
Qed.

(** A search started without [since_id] computes it once: from the first
    status of the first page, whose [id_str] is a text that [int] reads as
    [n].  Every later call, on whatever pages follow, asks for [since_id]
    = [n + 1] again; the ids of later pages are never read. *)
Theorem cursor_is_set_once self (search_query : value) params response
    (rest : list Response.t) (text : string) d fields (others : list value)
    (s : string) (n : Z) :
  params !! "q" = None ->
  params !! "since_id" = None ->
  decode_utf8 (Response.content response) = Some text ->
  Response.status_code response <= 304 ->
  json_loads text = Some (VDict d) ->
  assoc "statuses" d = Some (VList (VDict fields :: others)) ->
  assoc "id_str" fields = Some (VStr s) ->
  int_of_str s = Some n ->
  exists later,
    (search_gen json_loads int_of_str self search_query params
       (response :: rest)).1.1
    = (Searched (<["q" := search_query]> params)
         :: (Yielded <$> (VDict fields :: others)) ++ later)%list
    /\ Forall (searches_with
                 (<["q" := search_query]> (<["since_id" := VInt (n + 1)]> params)))
         later.
Proof.
  intros Hq Hsince Hdec Hlow Hjson Hd Hid Hn.
  assert (Hnext : next_params int_of_str params (VDict d)
                  = Return (<["since_id" := VInt (n + 1)]> params)).
  { unfold next_params.
    rewrite Hsince, (first_id_list int_of_str _ _ _ _ Hd Hid). cbn.
    rewrite Hn. reflexivity. }
  rewrite (search_gen_list_page _ _ _ _ _ _ text _ _ _ Hq Hdec Hlow Hjson Hd Hnext).
  pose proof (search_gen_pinned (searched self response text VNone) search_query
                (<["since_id" := VInt (n + 1)]> params) rest) as Hpinned.
  destruct (search_gen json_loads int_of_str _ search_query _ rest)
    as [[events fin] self'].
  exists events. split; [reflexivity|].
  apply Hpinned. rewrite lookup_insert_eq. eauto.
Qed.

(** With [since_id] among the parameters and a transport that answers
    every call with the same page of tweets, the generator never reports
    that the results are exhausted: whatever number of answers it has
    used, each call it made is the same call and each tweet it yielded is
    one of that page. *)
Theorem repeated_page_never_exhausts self (search_query : value) params response
    (text : string) d (first : value) (others : list value) (n : nat) :
  params !! "q" = None ->
  is_Some (params !! "since_id") ->
  decode_utf8 (Response.content response) = Some text ->
  Response.status_code response <= 304 ->
  json_loads text = Some (VDict d) ->
  assoc "statuses" d = Some (VList (first :: others)) ->
  let run :=
    search_gen json_loads int_of_str self search_query params
      (replicate n response) in
  run.1.2 <> Exhausted
  /\ Forall (repeats_page (<["q" := search_query]> params) (first :: others))
       run.1.1.
Proof.
  intros Hq [v Hv] Hdec Hlow Hjson Hd. cbn zeta.
  assert (Hnext : next_params int_of_str params (VDict d) = Return params).
  { unfold next_params. now rewrite Hv. }
  revert self. induction n as [|n IH]; intros self.
  - cbn. rewrite Hq. cbn. split; [discriminate|constructor].
  - cbn [replicate].
    rewrite (search_gen_list_page _ _ _ _ _ _ text _ _ _ Hq Hdec Hlow Hjson Hd Hnext).
    specialize (IH (searched self response text VNone)).
    destruct (search_gen json_loads int_of_str _ search_query params
                (replicate n response)) as [[events fin] self'].
    cbn [fst snd] in *. destruct IH as [Hfin Hevents]. split; [assumption|].
    apply Forall_cons. split; [reflexivity|].
    apply Forall_app. split; [|assumption].
    apply Forall_fmap, Forall_forall. intros tweet Htweet. exact Htweet.
Qed.

(** C4, where the code leaves it: a first status whose [id_str] is an
    infinite float (what [json.loads] makes of [1e999]) cannot be read as
    an integer, and the generator, once it has yielded the page, does not
    raise the pagination [TwythonError]: [int] raises [OverflowError],
    which the [try] block of lines 318-322 does not catch. *)
Theorem infinite_id_raises_OverflowError self (search_query : value) params
    response (rest : list Response.t) (text : string) d fields
    (others : list value) (sign : bool) :
  params !! "q" = None ->
  params !! "since_id" = None ->
  decode_utf8 (Response.content response) = Some text ->
  Response.status_code response <= 304 ->
  json_loads text = Some (VDict d) ->
  assoc "statuses" d = Some (VList (VDict fields :: others)) ->
  assoc "id_str" fields = Some (VFloat (S754_infinity sign)) ->
  search_gen json_loads int_of_str self search_query params (response :: rest)
  = (Searched (<["q" := search_query]> params)
       :: (Yielded <$> (VDict fields :: others)),
     Raised (Builtin_exc OverflowError),
     searched self response text VNone).
Proof.
  intros Hq Hsince Hdec Hlow Hjson Hd Hid.
  cbn [search_gen]. rewrite Hq.
  rewrite (search_low_status _ _ text) by assumption. rewrite Hjson.
  rewrite (search_gen_page_list int_of_str _ _ _ _ Hd).
  unfold next_params.
  rewrite Hsince, (first_id_list int_of_str _ _ _ _ Hd Hid). reflexivity.
Qed.

Lemma chars_not_empty (a : ascii) (s : string) : chars (String a s) <> [].
Proof.
  unfold chars. cbn [split_chars].
  destruct (split_chars s) as [k cs].
  destruct (is_continuation a); discriminate.
Qed.

(** A [statuses] that is no list, on a page asked without [since_id]: of
    a text the generator yields the characters and then raises the
    pagination [TwythonError]; of an object it yields the keys and then
    [KeyError] leaves it; a number or [true] makes [TypeError] leave it
    before anything is yielded. *)
Theorem statuses_of_another_type params d :
  params !! "since_id" = None ->
  (forall a s,
     assoc "statuses" d = Some (VStr (String a s)) ->
     search_gen_page int_of_str params (VDict d)
     = (VStr <$> chars (String a s), Fail no_next_page))
  /\ (forall item items,
        assoc "statuses" d = Some (VDict (item :: items)) ->
        search_gen_page int_of_str params (VDict d)
        = ((fun kv => VStr kv.1) <$> (item :: items),
           Fail (Builtin_exc KeyError)))
  /\ (forall statuses,
        assoc "statuses" d = Some statuses ->
        truthy statuses = true ->
        membership_defined statuses = false ->
        search_gen_page int_of_str params (VDict d) = ([], Fail (Builtin_exc TypeError))).
Proof.
  intros Hsince. split; [|split].
  - intros a s Hd. unfold search_gen_page, py_get. rewrite Hd. cbn.
    unfold next_params, first_id, getitem_str. rewrite Hsince, Hd. cbn.
    destruct (chars (String a s)) as [|c cs] eqn:Hc; [|reflexivity].
    now apply chars_not_empty in Hc.
  - intros item items Hd. unfold search_gen_page, py_get. rewrite Hd. cbn.
    unfold next_params, first_id, getitem_str. rewrite Hsince, Hd. reflexivity.
  - intros statuses Hd Htruthy Hkind. unfold search_gen_page, py_get.
    rewrite Hd. cbn. rewrite Htruthy. cbn.
    destruct statuses; try discriminate; reflexivity.
Qed.

End GeneratorRuns.

(** * Further concrete calls *)

(** Scenario A's page as [_request] returns it. *)
Lemma request_returns_the_parsed_body_witness :
  200 <= 304
  /\ exists text,
       decode_utf8 (Response.content (respond 200 body_two_statuses []))
       = Some text
       /\ (sample_loads text
           = Some (VDict [("statuses", VList [tweet "5"; tweet "3"])])
           \/ (sample_loads text = None
               /\ VDict [("statuses", VList [tweet "5"; tweet "3"])] = VDict []
               /\ (200 = 200 \/ 200 = 201 \/ 200 = 202))).
Proof.
  apply (request_returns_the_parsed_body sample_loads sample_client
           (respond 200 body_two_statuses []) VNone
           (VDict [("statuses", VList [tweet "5"; tweet "3"])])).
  reflexivity.
Defined.

(** Scenario D read backwards: from the exception to the status. *)
Lemma twython_exception_tells_status_witness :
  (TwythonRateLimitError = TwythonRateLimitError <-> 429 = 429)
  /\ (TwythonRateLimitError = TwythonAuthError ->
      429 = 401
      \/ exists v,
           Msg (VStr "An error occurred processing your request.") = Msg v
           /\ py_in "Bad Authentication data" v = Return true)
  /\ (429 <= 304 ->
      Twython_exc TwythonRateLimitError
        (Msg (VStr "An error occurred processing your request."))
        (Some 429) (Some "30") = invalid_json)
  /\ (304 < 429 ->
      Some 429 = Some 429
      /\ Some "30"
         = headers_get
             (Response.headers
                (respond 429 "Rate limit exceeded" [("retry-after", "30")]))
             "retry-after").
Proof.
  apply (twython_exception_tells_status sample_loads sample_client
           (respond 429 "Rate limit exceeded" [("retry-after", "30")]) VNone
           TwythonRateLimitError
           (Msg (VStr "An error occurred processing your request."))
           (Some 429) (Some "30")).
  reflexivity.
Defined.

(** The 404 whose [errors] hold no [message] is not classifiable, and a
    builtin exception leaves the call. *)
Lemma typed_error_iff_classifiable_witness :
  exists e,
    (_request sample_loads sample_client
       (respond 404 body_errors_without_message []) VNone).1 = Raise e
    /\ is_twython e = false.
Proof.
  apply (typed_error_iff_classifiable sample_loads sample_client
           (respond 404 body_errors_without_message []) VNone
           body_errors_without_message);
    [reflexivity | cbn; lia].
Defined.

Lemma request_url_is_stable_witness :
  request_url (request_url "search/tweets" "1.1") "2"
  = "https://api.twitter.com/1.1/search/tweets.json"
  /\ exists error,
       _last_call
         (request sample_loads sample_client "search/tweets" "1.1"
            (respond 200 body_no_statuses [])).2
       = Some (recorded (respond 200 body_no_statuses [])
                 (VStr "https://api.twitter.com/1.1/search/tweets.json")
                 body_no_statuses error).
Proof.
  apply (request_url_is_stable sample_loads sample_client "search/tweets" "1.1"
           "2" (respond 200 body_no_statuses []) body_no_statuses).
  reflexivity.
Defined.

(** [Twython(APP_KEY, APP_SECRET).get_authentication_tokens()] *)
Lemma no_callback_raises_witness :
  get_authentication_tokens sample_parse_qsl sample_urlencode sample_client
    VNone (VBool false) (VStr EmptyString) (respond 200 body_tokens [])
  = Raise (Builtin_exc AttributeError).
Proof.
  apply (no_callback_raises sample_parse_qsl sample_urlencode sample_client
           VNone (VBool false) (VStr EmptyString) (respond 200 body_tokens []));
    reflexivity.
Defined.

Lemma confirmed_callback_returns_tokens_witness :
  exists tokens,
    get_authentication_tokens more_parse_qsl sample_urlencode sample_client
      (VStr "http://example.com/cb") (VBool true) (VStr "jack")
      (respond 200 body_confirmed []) = Return tokens
    /\ tokens !! "auth_url"
       = Some (authenticate_url +:+ "?"
               +:+ sample_urlencode
                     (confirmed_params "abc" (VBool true) (VStr "jack")))
    /\ confirmed_params "abc" (VBool true) (VStr "jack") !! "oauth_callback" = None
    /\ forall name, name <> "auth_url" ->
                    tokens !! name = py_dict (more_parse_qsl body_confirmed) !! name.
Proof.
  apply (confirmed_callback_returns_tokens more_parse_qsl sample_urlencode
           sample_client (VStr "http://example.com/cb") (VBool true)
           (VStr "jack") (respond 200 body_confirmed []) body_confirmed "abc");
    reflexivity.
Defined.

Lemma empty_request_tokens_raise_witness :
  get_authentication_tokens more_parse_qsl sample_urlencode sample_client
    (VStr "http://example.com/cb") (VBool false) (VStr EmptyString)
    (respond 200 "Service unavailable" [])
  = Raise (Twython_exc TwythonError
             (Msg (VStr "Unable to decode request tokens.")) None None).
Proof.
  apply (empty_request_tokens_raise more_parse_qsl sample_urlencode sample_client
           (VStr "http://example.com/cb") (VBool false) (VStr EmptyString)
           (respond 200 "Service unavailable" []) "Service unavailable");
    reflexivity.
Defined.

Lemma missing_oauth_token_raises_KeyError_witness :
  get_authentication_tokens more_parse_qsl sample_urlencode sample_client
    (VStr "http://example.com/cb") (VBool false) (VStr EmptyString)
    (respond 200 "error=denied" [])
  = Raise (Builtin_exc KeyError).
Proof.
  apply (missing_oauth_token_raises_KeyError more_parse_qsl sample_urlencode
           sample_client (VStr "http://example.com/cb") (VBool false)
           (VStr EmptyString) (respond 200 "error=denied" []) "error=denied");
    try reflexivity.
  intros H.
  assert (Hl := f_equal (fun m : gmap string string => m !! "error") H).
  vm_compute in Hl. discriminate Hl.
Defined.

(** Scenario B, with a response that is never asked for. *)
Lemma page_without_statuses_ends_generator_witness :
  search_gen sample_loads ascii_int sample_client (VStr "python") ∅
    [respond 200 body_no_statuses []; respond 200 body_two_statuses []]
  = ([Searched (<["q" := VStr "python"]> ∅)], Exhausted,
     searched sample_client (respond 200 body_no_statuses []) body_no_statuses
       VNone).
Proof.
  apply (page_without_statuses_ends_generator sample_loads ascii_int sample_client
           (VStr "python") ∅ (respond 200 body_no_statuses [])
           [respond 200 body_two_statuses []] body_no_statuses);
    [reflexivity | reflexivity | cbn; lia |].
  left. exists [("statuses", VList [])]. split; [reflexivity|].
  intros statuses H. cbn in H. now simplify_eq.
Defined.

(** Scenario C as the first page of a search. *)
Lemma error_page_raises_from_generator_witness :
  exists e,
    (_request sample_loads sample_client (respond 401 body_expired_token [])
       (VStr (request_url "search/tweets" "1.1"))).1 = Raise e
    /\ search_gen sample_loads ascii_int sample_client (VStr "python") ∅
         [respond 401 body_expired_token []; respond 200 body_two_statuses []]
       = ([Searched (<["q" := VStr "python"]> ∅)], Raised e,
          (_request sample_loads sample_client (respond 401 body_expired_token [])
             (VStr (request_url "search/tweets" "1.1"))).2).
Proof.
  apply (error_page_raises_from_generator sample_loads ascii_int sample_client
           (VStr "python") ∅ (respond 401 body_expired_token [])
           [respond 200 body_two_statuses []]);
    [reflexivity | cbn; lia].
Defined.

(** Scenario A followed by the same page again: the second and the third
    call ask for [since_id=6]. *)
Lemma cursor_is_set_once_witness :
  exists later,
    (search_gen sample_loads ascii_int sample_client (VStr "python") ∅
       [respond 200 body_two_statuses []; respond 200 body_two_statuses [];
        respond 200 body_no_statuses []]).1.1
    = (Searched (<["q" := VStr "python"]> ∅)
         :: (Yielded <$> [tweet "5"; tweet "3"]) ++ later)%list
    /\ Forall (searches_with
                 (<["q" := VStr "python"]> (<["since_id" := VInt (5 + 1)]> ∅)))
         later.
Proof.
  apply (cursor_is_set_once sample_loads ascii_int sample_client (VStr "python") ∅
           (respond 200 body_two_statuses [])
           [respond 200 body_two_statuses []; respond 200 body_no_statuses []]
           body_two_statuses [("statuses", VList [tweet "5"; tweet "3"])]
           [("id_str", VStr "5")] [tweet "3"] "5" 5);
    try reflexivity.
  cbn. lia.
Defined.

Lemma repeated_page_never_exhausts_witness :
  (search_gen sample_loads ascii_int sample_client (VStr "python")
     {[ "since_id" := VInt 6 ]}
     (replicate 3 (respond 200 body_two_statuses []))).1.2 <> Exhausted
  /\ Forall (repeats_page (<["q" := VStr "python"]> {[ "since_id" := VInt 6 ]})
               [tweet "5"; tweet "3"])
       (search_gen sample_loads ascii_int sample_client (VStr "python")
          {[ "since_id" := VInt 6 ]}
          (replicate 3 (respond 200 body_two_statuses []))).1.1.
Proof.
  apply (repeated_page_never_exhausts sample_loads ascii_int sample_client
           (VStr "python") {[ "since_id" := VInt 6 ]}
           (respond 200 body_two_statuses []) body_two_statuses
           [("statuses", VList [tweet "5"; tweet "3"])] (tweet "5") [tweet "3"] 3);
    try reflexivity.
  - eexists. reflexivity.
  - cbn. lia.
Defined.

(** A 200 whose first status has the id [1e999]. *)
Lemma infinite_id_raises_OverflowError_witness :
  search_gen overflow_loads ascii_int sample_client (VStr "python") ∅
    [respond 200 body_overflowing_id []; respond 200 body_no_statuses []]
  = ([ Searched (<["q" := VStr "python"]> ∅);
       Yielded (VDict [("id_str", VFloat (S754_infinity false))]) ],
     Raised (Builtin_exc OverflowError),
     searched sample_client (respond 200 body_overflowing_id [])
       body_overflowing_id VNone).
Proof.
  apply (infinite_id_raises_OverflowError overflow_loads ascii_int sample_client
           (VStr "python") ∅ (respond 200 body_overflowing_id [])
           [respond 200 body_no_statuses []] body_overflowing_id
           [("statuses", VList [VDict [("id_str", VFloat (S754_infinity false))]])]
           [("id_str", VFloat (S754_infinity false))] [] false);
    try reflexivity.
  cbn. lia.
Defined.

Lemma statuses_of_another_type_witness :
  search_gen_page ascii_int ∅ (VDict [("statuses", VStr "no")])
  = ([VStr "n"; VStr "o"], Fail no_next_page).
Proof.
  refine (proj1 (statuses_of_another_type ascii_int ∅ [("statuses", VStr "no")] eq_refl)
            "n"%char "o" eq_refl).
Defined.

(** * How calls compose *)

Section Composition.

Variable json_loads : string -> option value.
Variable parse_qsl : string -> list (string * string).

Implicit Types (self : Twython) (response : Response.t) (api_call : value).

(** The [retry_after] an exception of an error response carries is what
    [get_lastfunction_header('retry-after')] returns after the call: the
    value of the header, or [None] for both when the response has none. *)
Theorem retry_after_is_in_the_record self response api_call cls m code retry :
  304 < Response.status_code response ->
  (_request json_loads self response api_call).1
  = Raise (Twython_exc cls m code retry) ->
  get_lastfunction_header (_request json_loads self response api_call).2
    "retry-after"
  = Return (from_option VStr VNone retry).
Proof.
  intros Hhigh Hraise.
  destruct (decode_utf8 (Response.content response)) as [text|] eqn:Hdec;
    [|rewrite _request_undecodable in Hraise by assumption; discriminate].
  destruct (_request_last_call json_loads self response api_call text Hdec)
    as [error Hrec].
  rewrite (get_lastfunction_header_recorded _ _ "retry-after" Hrec). cbn.
  rewrite (_request_high_status _ _ _ _ text) in Hraise by assumption.
  destruct (extract_error_message _) as [msg|e] eqn:Hm; cbn [fst] in Hraise.
  - destruct (exception_type _ msg) as [c|e] eqn:Hc.
    + now simplify_eq.
    + apply exception_type_raises in Hc. simplify_eq.
  - apply extract_error_message_raises in Hm as [c ->]. simplify_eq.
Qed.

(** A call leaves no trace of the call before it: what it returns or
    raises does not depend on the earlier call, and when its response is
    text the client it leaves is the one it would leave without the
    earlier call. *)
Theorem call_overwrites_the_call_before self response api_call response'
    api_call' (text : string) :
  decode_utf8 (Response.content response') = Some text ->
  _request json_loads (_request json_loads self response api_call).2
    response' api_call'
  = _request json_loads self response' api_call'.
Proof.
  intros Hdec.
  destruct (_request_keeps_client json_loads self response api_call)
    as (H1 & H2 & H3 & H4 & H5 & H6 & H7).
  destruct (_request json_loads self response api_call) as [result self1].
  cbn [snd] in *.
  assert (Hset : forall lc, set_last_call self1 lc = set_last_call self lc).
  { intros lc. unfold set_last_call. congruence. }
  destruct (Z.le_gt_cases (Response.status_code response') 304) as [Hlow|Hhigh].
  - rewrite !(_request_low_status _ _ _ _ text) by assumption. now rewrite Hset.
  - rewrite !(_request_high_status _ _ _ _ text) by assumption.
    destruct (extract_error_message _); now rewrite Hset.
Qed.

Lemma fold_insert_lookup_other {A} (pairs : list (string * A))
    (m : gmap string A) (k : string) :
  k ∉ pairs.*1 ->
  fold_left (fun m kv => <[kv.1 := kv.2]> m) pairs m !! k = m !! k.
Proof.
  revert m. induction pairs as [|[k' v'] pairs IH]; intros m Hk; [reflexivity|].
  cbn in *. apply not_elem_of_cons in Hk as [Hne Hk].
  rewrite IH by assumption. now apply lookup_insert_ne.
Qed.

Lemma py_dict_last_binding {A} (before after : list (string * A)) (k : string)
    (v : A) :
  k ∉ after.*1 ->
  py_dict (before ++ (k, v) :: after)%list !! k = Some v.
Proof.
  intros Hk. unfold py_dict. rewrite fold_left_app. cbn.
  rewrite fold_insert_lookup_other by assumption. apply lookup_insert_eq.
Qed.

Lemma py_dict_no_binding {A} (pairs : list (string * A)) (k : string) :
  k ∉ pairs.*1 -> py_dict pairs !! k = None.
Proof.
  intros Hk. unfold py_dict. rewrite fold_insert_lookup_other by assumption.
  apply lookup_empty.
Qed.

(** The tokens [get_authorized_tokens] returns are the pairs of the body:
    a key the body holds is returned with the value of its last pair, and
    a key the body does not hold is not returned. *)
Theorem authorized_tokens_last_pair_wins self (oauth_verifier : value) response
    (text : string) (before after : list (string * string)) (k v : string) :
  decode_utf8 (Response.content response) = Some text ->
  parse_qsl text = (before ++ (k, v) :: after)%list ->
  k ∉ after.*1 ->
  exists tokens,
    get_authorized_tokens parse_qsl self oauth_verifier response = Return tokens
    /\ tokens !! k = Some v
    /\ forall k', k' ∉ (parse_qsl text).*1 -> tokens !! k' = None.
Proof.
  intros Hdec Hpairs Hk.
  unfold get_authorized_tokens. rewrite Hdec.
  case_bool_decide as Hempty.
  - pose proof (py_dict_last_binding before after k v Hk) as Hlast.
    rewrite <- Hpairs, Hempty, lookup_empty in Hlast. discriminate.
  - eexists. split; [reflexivity|]. split.
    + rewrite Hpairs. now apply py_dict_last_binding.
    + intros k' Hk'. now apply py_dict_no_binding.
Qed.

End Composition.

(** A 429 with [retry-after: 30], and the header read afterwards. *)
Lemma retry_after_is_in_the_record_witness :
  get_lastfunction_header
    (_request sample_loads sample_client
       (respond 429 "Rate limit exceeded" [("retry-after", "30")]) VNone).2
    "retry-after"
  = Return (VStr "30").
Proof.
  apply (retry_after_is_in_the_record sample_loads sample_client
           (respond 429 "Rate limit exceeded" [("retry-after", "30")]) VNone
           TwythonRateLimitError
           (Msg (VStr "An error occurred processing your request."))
           (Some 429) (Some "30"));
    [cbn; lia | reflexivity].
Defined.

(** A rate-limited call, then a search that succeeds. *)
Lemma call_overwrites_the_call_before_witness :
  _request sample_loads
    (_request sample_loads sample_client
       (respond 429 "Rate limit exceeded" [("retry-after", "30")]) VNone).2
    (respond 200 body_two_statuses []) (VStr "search")
  = _request sample_loads sample_client (respond 200 body_two_statuses [])
      (VStr "search").
Proof.
  apply (call_overwrites_the_call_before sample_loads sample_client
           (respond 429 "Rate limit exceeded" [("retry-after", "30")]) VNone
           (respond 200 body_two_statuses []) (VStr "search") body_two_statuses).
  reflexivity.
Defined.

Lemma authorized_tokens_last_pair_wins_witness :
  exists tokens,
    get_authorized_tokens twice_parse_qsl sample_client (VStr "1234567")
      (respond 200 "oauth_token=old&oauth_token=new" []) = Return tokens
    /\ tokens !! "oauth_token" = Some "new"
    /\ forall k',
         k' ∉ (twice_parse_qsl "oauth_token=old&oauth_token=new").*1 ->
         tokens !! k' = None.
Proof.
  apply (authorized_tokens_last_pair_wins twice_parse_qsl sample_client
           (VStr "1234567") (respond 200 "oauth_token=old&oauth_token=new" [])
           "oauth_token=old&oauth_token=new" [("oauth_token", "old")] []
           "oauth_token" "new");
    [reflexivity | reflexivity |].
  cbn. apply not_elem_of_nil.
Defined.
